(** * maxtouch.c: capability-table resolution, configuration and contact decoding

    A shallow embedding of [src/maxtouch.c].  The C statics become one record
    [statics] that is passed in and out; the I2C transport becomes a scripted
    device (the answers it will give, in order) together with a log of what
    the driver did on the bus; array accesses and divisions that C leaves
    undefined return an explicit error.

    The header [maxtouch.h] is not part of the sources.  What the driver takes
    from it is gathered below: the constants are fields of [maxtouch_h] (a
    parameter of every definition), the four small wire structs are decoded
    in the order of their fields on the chip. *)

From Stdlib Require Import ZArith List Bool Lia QArith Qround.
From Stdlib.Strings Require Byte.
From stdpp Require Import base list.

Local Open Scope Z_scope.

(** ** Machine integers *)

Abbreviation byte := Corelib.Init.Byte.byte.

(** The value of a [uint8_t]. *)
Definition u8 (b : byte) : Z := Z.of_N (Byte.to_N b).

(** Conversion to [uint8_t] and [uint16_t] (wrap-around), and [int] taken
    as 32 bits wide in two's complement. *)
Definition wrap8 (z : Z) : Z := z mod 2 ^ 8.
Definition wrap16 (z : Z) : Z := z mod 2 ^ 16.
Definition wrap_int (z : Z) : Z := (z + 2 ^ 31) mod 2 ^ 32 - 2 ^ 31.
Definition INT_MAX : Z := 2 ^ 31 - 1.

(** The byte with a given value, for writing device scripts. *)
Definition byte_of_Z (z : Z) : byte :=
  match Byte.of_N (Z.to_N (wrap8 z)) with
  | Some b => b
  | None => Byte.x00
  end.

(** ** Undefined behaviour made explicit *)

Inductive array_name := ARRAY_t100_subsequent_report_ids | ARRAY_fingers.

Inductive undefined :=
| out_of_bounds (a : array_name) (index : Z)
| division_by_zero
| signed_overflow.

Inductive result (A : Type) :=
| Ok (a : A)
| UB (e : undefined).
Arguments Ok {A} a.
Arguments UB {A} e.

#[global] Instance result_bind : MBind result := fun A B k r =>
  match r with
  | Ok a => k a
  | UB e => UB e
  end.

(** [a / b] on [int]: truncating division, undefined for a zero divisor. *)
Definition int_div (a b : Z) : result Z :=
  if b =? 0 then UB division_by_zero else Ok (Z.quot a b).

(** The value of an [int] expression: undefined outside the range of [int]. *)
Definition int_val (z : Z) : result Z :=
  if (- 2 ^ 31 <=? z) && (z <=? INT_MAX) then Ok z else UB signed_overflow.

(** [a[i]] for an array held as a list. *)
Definition array_get {A} (name : array_name) (a : list A) (i : Z) : result A :=
  if 0 <=? i then
    match a !! Z.to_nat i with
    | Some v => Ok v
    | None => UB (out_of_bounds name i)
    end
  else UB (out_of_bounds name i).

(** ** The macros of maxtouch.c *)

(** The three macros on operands of type [int], as the driver uses them
    ([cpi] is a [uint16_t], promoted to [int]): every product, sum and
    quotient must stay in the range of [int], and a divisor must not be
    zero. *)
Definition DIVIDE_UNSIGNED_ROUND (numerator denominator : Z) : result Z :=
  half ← int_div denominator 2;
  sum ← int_val (numerator + half);
  quotient ← int_div sum denominator;
  int_val quotient.
Definition CPI_TO_SAMPLES (cpi dist_in_mm : Z) : result Z :=
  product ← int_val (cpi * dist_in_mm);
  numerator ← int_val (product * 10);
  DIVIDE_UNSIGNED_ROUND numerator 254.
Definition SAMPLES_TO_CPI (samples dist_in_mm : Z) : result Z :=
  numerator ← int_val (samples * 254);
  denominator ← int_val (dist_in_mm * 10);
  DIVIDE_UNSIGNED_ROUND numerator denominator.

Definition MXT_DEFAULT_DPI : Z := 600.
Definition MXT_TOUCH_THRESHOLD : Z := 18.
Definition MXT_GAIN : Z := 4.
Definition MXT_DX_GAIN : Z := 255.
Definition NUM_FINGERS : Z := 5.

(** ** What maxtouch.h declares *)

(** Modelled from the spec: the constants of the absent header [maxtouch.h]
    (and of the board configuration) that maxtouch.c names.  The spec gives
    none of their values, so they are parameters. *)
Record maxtouch_h := {
  MXT_REG_INFORMATION_BLOCK : Z;
  MXT_SENSOR_WIDTH_MM : Z;
  MXT_SENSOR_HEIGHT_MM : Z;
  DIGITIZER_INVERT_X : bool;
  T7_CFG_ACTVPIPEEN : Z;
  T7_CFG_IDLEPIPEEN : Z;
  T100_CTRL_RPTEN : Z;
  T100_CTRL_ENABLE : Z;
  T100_CFG_SWITCHXY : Z;
  T100_CFG_INVERTY : Z;
  (* the event tags of a touch message *)
  DOWN : Z;
  UP : Z;
  SUP : Z;
  DOWNSUP : Z;
  UNSUP : Z;
  DOWNUP : Z;
  (* sizeof of the configuration records, whose layout the driver never uses *)
  sizeof_mxt_gen_powerconfig_t7 : Z;
  sizeof_mxt_gen_acquisitionconfig_t8 : Z;
  sizeof_mxt_spt_cteconfig_t46 : Z;
  sizeof_mxt_touch_multiscreen_t100 : Z
}.

(** Modelled from the spec: the wire structs of the absent header
    [maxtouch.h].  Section 6 of the spec fixes them as fixed-size records of
    8-bit fields; the fields are the ones maxtouch.c names, in the order the
    chip sends them. *)
Record mxt_information_block := {
  family_id : byte;
  variant_id : byte;
  version : byte;
  build : byte;
  matrix_x_size : byte;
  matrix_y_size : byte;
  num_objects : byte
}.

Record mxt_object_table_element := {
  type : byte;
  position_ls_byte : byte;
  position_ms_byte : byte;
  size_minus_one : byte;
  instances_minus_one : byte;
  report_ids_per_instance : byte
}.

Record mxt_message_count := { count : byte }.

Record mxt_message := {
  report_id : byte;
  data : list byte
}.

Definition sizeof_mxt_information_block : Z := 7.
Definition sizeof_mxt_object_table_element : Z := 6.
Definition sizeof_mxt_message_count : Z := 1.
Definition sizeof_mxt_message : Z := 6.

(** A buffer is zero-initialised before every read, so a byte the device did
    not deliver reads as zero. *)
Definition byte_at (i : nat) (buf : list byte) : byte := nth i buf Byte.x00.

Definition as_information_block (buf : list byte) : mxt_information_block :=
  {| family_id := byte_at 0 buf; variant_id := byte_at 1 buf;
     version := byte_at 2 buf; build := byte_at 3 buf;
     matrix_x_size := byte_at 4 buf; matrix_y_size := byte_at 5 buf;
     num_objects := byte_at 6 buf |}.

Definition as_object_table_element (buf : list byte) : mxt_object_table_element :=
  {| type := byte_at 0 buf; position_ls_byte := byte_at 1 buf;
     position_ms_byte := byte_at 2 buf; size_minus_one := byte_at 3 buf;
     instances_minus_one := byte_at 4 buf;
     report_ids_per_instance := byte_at 5 buf |}.

Definition as_message_count (buf : list byte) : mxt_message_count :=
  {| count := byte_at 0 buf |}.

Definition as_message (buf : list byte) : mxt_message :=
  {| report_id := byte_at 0 buf;
     data := [byte_at 1 buf; byte_at 2 buf; byte_at 3 buf; byte_at 4 buf;
              byte_at 5 buf] |}.

(** Modelled from the spec: the configuration records of the absent header
    [maxtouch.h], which section 4.2 of the spec lists by content.  The driver
    only assigns their fields, so a record is the image last read from the
    chip (all zero when nothing was read) together with the fields the driver
    names; an assignment converts to the width the field has on the chip. *)
Record mxt_gen_powerconfig_t7 := {
  idleacqint : Z;
  actacqint : Z;
  actv2idelto : Z;
  t7_cfg : Z
}.

Record mxt_touch_multiscreen_t100 := {
  t100_image : list byte;
  ctrl : Z; cfg1 : Z; scraux : Z; numtch : Z;
  xsize : Z; ysize : Z; xpitch : Z; ypitch : Z;
  gain : Z; dxgain : Z; tchthr : Z; mrgthr : Z; mrghyst : Z;
  movsmooth : Z; movfilter : Z; movhysti : Z; movhystn : Z;
  xrange : Z; yrange : Z
}.

(** ** The transport *)

(** Modelled from the spec: [I2C_Read] and [I2C_Write] are declared outside
    maxtouch.c.  Section 6 of the spec gives their contract: an operation on
    an address, a buffer and a length returns success or failure, with no
    partial transfer; so a failed read leaves the buffer as it was.  The
    device is a script of answers, one for each operation in turn, which
    covers every way a device can behave in one run of the driver.

    What the device answers to one bus operation: a failure status, or
    success (with the bytes delivered, for a read). *)
Inductive reply :=
| Nack (status : Z)
| Ack (bytes : list byte).

Inductive payload :=
| PAYLOAD_t7 (t7 : mxt_gen_powerconfig_t7)
| PAYLOAD_t8
| PAYLOAD_t46
| PAYLOAD_t100 (cfg : mxt_touch_multiscreen_t100).

Inductive diagnostic :=
| Found_MXT (information : mxt_information_block)
| Failed_to_read_object_table_element (status : Z)
| Failed_to_read_object_table (status : Z)
| T100_Configuration_failed (status : Z)
| Unhandled_ID (report_id first_id past_id last_id : Z).

(** What the driver did, in program order. *)
Inductive op :=
| Rd (address length : Z)
| Wr (address length : Z) (p : payload)
| Printf (d : diagnostic).

Record bus := {
  script : list reply;   (* the answers still to come *)
  log : list op          (* what was done so far, oldest first *)
}.

(** A device that has stopped answering fails every operation. *)
Definition next_reply (b : bus) : reply * list reply :=
  match script b with
  | [] => (Nack 1, [])
  | r :: rest => (r, rest)
  end.

Definition I2C_Read (address length : Z) (b : bus) : reply * bus :=
  let '(r, rest) := next_reply b in
  (r, {| script := rest; log := log b ++ [Rd address length] |}).

Definition I2C_Write (address length : Z) (p : payload) (b : bus) : reply * bus :=
  let '(r, rest) := next_reply b in
  (r, {| script := rest; log := log b ++ [Wr address length p] |}).

Definition printf (d : diagnostic) (b : bus) : bus :=
  {| script := script b; log := log b ++ [Printf d] |}.

(** ** The statics of maxtouch.c *)

(** [write_configuration] names an object [information] that maxtouch.c
    declares nowhere at file scope and never assigns: the field [information]
    is that object, left to whoever completes the file.  The [information] of
    [read_object_table] is a local of that function (its own binder below)
    and never reaches [write_configuration]. *)
Record statics := {
  t2_encryption_status_address : Z;
  t5_message_processor_address : Z;
  t5_max_message_size : Z;
  t6_command_processor_address : Z;
  t7_powerconfig_address : Z;
  t8_acquisitionconfig_address : Z;
  t44_message_count_address : Z;
  t46_cte_config_address : Z;
  t100_multiple_touch_touchscreen_address : Z;
  t100_first_report_id : Z;
  t100_second_report_id : Z;
  t100_subsequent_report_ids : list Z;
  t100_num_reports : Z;
  cpi : Z;
  information : mxt_information_block
}.

Definition zero_information_block : mxt_information_block :=
  {| family_id := Byte.x00; variant_id := Byte.x00; version := Byte.x00;
     build := Byte.x00; matrix_x_size := Byte.x00; matrix_y_size := Byte.x00;
     num_objects := Byte.x00 |}.

(** The initial values of the statics; the object [information] is taken
    zero-initialised, as an object of static storage is. *)
Definition initial_statics : statics :=
  {| t2_encryption_status_address := 0;
     t5_message_processor_address := 0;
     t5_max_message_size := 0;
     t6_command_processor_address := 0;
     t7_powerconfig_address := 0;
     t8_acquisitionconfig_address := 0;
     t44_message_count_address := 0;
     t46_cte_config_address := 0;
     t100_multiple_touch_touchscreen_address := 0;
     t100_first_report_id := 0;
     t100_second_report_id := 0;
     t100_subsequent_report_ids := [0; 0; 0; 0; 0];
     t100_num_reports := 0;
     cpi := MXT_DEFAULT_DPI;
     information := zero_information_block |}.

(** Assignment to one static. *)
Definition set_t2_encryption_status_address (v : Z) (s : statics) : statics :=
  {| t2_encryption_status_address := v;
     t5_message_processor_address := t5_message_processor_address s;
     t5_max_message_size := t5_max_message_size s;
     t6_command_processor_address := t6_command_processor_address s;
     t7_powerconfig_address := t7_powerconfig_address s;
     t8_acquisitionconfig_address := t8_acquisitionconfig_address s;
     t44_message_count_address := t44_message_count_address s;
     t46_cte_config_address := t46_cte_config_address s;
     t100_multiple_touch_touchscreen_address := t100_multiple_touch_touchscreen_address s;
     t100_first_report_id := t100_first_report_id s;
     t100_second_report_id := t100_second_report_id s;
     t100_subsequent_report_ids := t100_subsequent_report_ids s;
     t100_num_reports := t100_num_reports s;
     cpi := cpi s;
     information := information s |}.
Definition set_t5_message_processor_address (v : Z) (s : statics) : statics :=
  {| t2_encryption_status_address := t2_encryption_status_address s;
     t5_message_processor_address := v;
     t5_max_message_size := t5_max_message_size s;
     t6_command_processor_address := t6_command_processor_address s;
     t7_powerconfig_address := t7_powerconfig_address s;
     t8_acquisitionconfig_address := t8_acquisitionconfig_address s;
     t44_message_count_address := t44_message_count_address s;
     t46_cte_config_address := t46_cte_config_address s;
     t100_multiple_touch_touchscreen_address := t100_multiple_touch_touchscreen_address s;
     t100_first_report_id := t100_first_report_id s;
     t100_second_report_id := t100_second_report_id s;
     t100_subsequent_report_ids := t100_subsequent_report_ids s;
     t100_num_reports := t100_num_reports s;
     cpi := cpi s;
     information := information s |}.
Definition set_t5_max_message_size (v : Z) (s : statics) : statics :=
  {| t2_encryption_status_address := t2_encryption_status_address s;
     t5_message_processor_address := t5_message_processor_address s;
     t5_max_message_size := v;
     t6_command_processor_address := t6_command_processor_address s;
     t7_powerconfig_address := t7_powerconfig_address s;
     t8_acquisitionconfig_address := t8_acquisitionconfig_address s;
     t44_message_count_address := t44_message_count_address s;
     t46_cte_config_address := t46_cte_config_address s;
     t100_multiple_touch_touchscreen_address := t100_multiple_touch_touchscreen_address s;
     t100_first_report_id := t100_first_report_id s;
     t100_second_report_id := t100_second_report_id s;
     t100_subsequent_report_ids := t100_subsequent_report_ids s;
     t100_num_reports := t100_num_reports s;
     cpi := cpi s;
     information := information s |}.
Definition set_t6_command_processor_address (v : Z) (s : statics) : statics :=
  {| t2_encryption_status_address := t2_encryption_status_address s;
     t5_message_processor_address := t5_message_processor_address s;
     t5_max_message_size := t5_max_message_size s;
     t6_command_processor_address := v;
     t7_powerconfig_address := t7_powerconfig_address s;
     t8_acquisitionconfig_address := t8_acquisitionconfig_address s;
     t44_message_count_address := t44_message_count_address s;
     t46_cte_config_address := t46_cte_config_address s;
     t100_multiple_touch_touchscreen_address := t100_multiple_touch_touchscreen_address s;
     t100_first_report_id := t100_first_report_id s;
     t100_second_report_id := t100_second_report_id s;
     t100_subsequent_report_ids := t100_subsequent_report_ids s;
     t100_num_reports := t100_num_reports s;
     cpi := cpi s;
     information := information s |}.
Definition set_t7_powerconfig_address (v : Z) (s : statics) : statics :=
  {| t2_encryption_status_address := t2_encryption_status_address s;
     t5_message_processor_address := t5_message_processor_address s;
     t5_max_message_size := t5_max_message_size s;
     t6_command_processor_address := t6_command_processor_address s;
     t7_powerconfig_address := v;
     t8_acquisitionconfig_address := t8_acquisitionconfig_address s;
     t44_message_count_address := t44_message_count_address s;
     t46_cte_config_address := t46_cte_config_address s;
     t100_multiple_touch_touchscreen_address := t100_multiple_touch_touchscreen_address s;
     t100_first_report_id := t100_first_report_id s;
     t100_second_report_id := t100_second_report_id s;
     t100_subsequent_report_ids := t100_subsequent_report_ids s;
     t100_num_reports := t100_num_reports s;
     cpi := cpi s;
     information := information s |}.
Definition set_t8_acquisitionconfig_address (v : Z) (s : statics) : statics :=
  {| t2_encryption_status_address := t2_encryption_status_address s;
     t5_message_processor_address := t5_message_processor_address s;
     t5_max_message_size := t5_max_message_size s;
     t6_command_processor_address := t6_command_processor_address s;
     t7_powerconfig_address := t7_powerconfig_address s;
     t8_acquisitionconfig_address := v;
     t44_message_count_address := t44_message_count_address s;
     t46_cte_config_address := t46_cte_config_address s;
     t100_multiple_touch_touchscreen_address := t100_multiple_touch_touchscreen_address s;
     t100_first_report_id := t100_first_report_id s;
     t100_second_report_id := t100_second_report_id s;
     t100_subsequent_report_ids := t100_subsequent_report_ids s;
     t100_num_reports := t100_num_reports s;
     cpi := cpi s;
     information := information s |}.
Definition set_t44_message_count_address (v : Z) (s : statics) : statics :=
  {| t2_encryption_status_address := t2_encryption_status_address s;
     t5_message_processor_address := t5_message_processor_address s;
     t5_max_message_size := t5_max_message_size s;
     t6_command_processor_address := t6_command_processor_address s;
     t7_powerconfig_address := t7_powerconfig_address s;
     t8_acquisitionconfig_address := t8_acquisitionconfig_address s;
     t44_message_count_address := v;
     t46_cte_config_address := t46_cte_config_address s;
     t100_multiple_touch_touchscreen_address := t100_multiple_touch_touchscreen_address s;
     t100_first_report_id := t100_first_report_id s;
     t100_second_report_id := t100_second_report_id s;
     t100_subsequent_report_ids := t100_subsequent_report_ids s;
     t100_num_reports := t100_num_reports s;
     cpi := cpi s;
     information := information s |}.
Definition set_t46_cte_config_address (v : Z) (s : statics) : statics :=
  {| t2_encryption_status_address := t2_encryption_status_address s;
     t5_message_processor_address := t5_message_processor_address s;
     t5_max_message_size := t5_max_message_size s;
     t6_command_processor_address := t6_command_processor_address s;
     t7_powerconfig_address := t7_powerconfig_address s;
     t8_acquisitionconfig_address := t8_acquisitionconfig_address s;
     t44_message_count_address := t44_message_count_address s;
     t46_cte_config_address := v;
     t100_multiple_touch_touchscreen_address := t100_multiple_touch_touchscreen_address s;
     t100_first_report_id := t100_first_report_id s;
     t100_second_report_id := t100_second_report_id s;
     t100_subsequent_report_ids := t100_subsequent_report_ids s;
     t100_num_reports := t100_num_reports s;
     cpi := cpi s;
     information := information s |}.
Definition set_t100_multiple_touch_touchscreen_address (v : Z) (s : statics) : statics :=
  {| t2_encryption_status_address := t2_encryption_status_address s;
     t5_message_processor_address := t5_message_processor_address s;
     t5_max_message_size := t5_max_message_size s;
     t6_command_processor_address := t6_command_processor_address s;
     t7_powerconfig_address := t7_powerconfig_address s;
     t8_acquisitionconfig_address := t8_acquisitionconfig_address s;
     t44_message_count_address := t44_message_count_address s;
     t46_cte_config_address := t46_cte_config_address s;
     t100_multiple_touch_touchscreen_address := v;
     t100_first_report_id := t100_first_report_id s;
     t100_second_report_id := t100_second_report_id s;
     t100_subsequent_report_ids := t100_subsequent_report_ids s;
     t100_num_reports := t100_num_reports s;
     cpi := cpi s;
     information := information s |}.
Definition set_t100_first_report_id (v : Z) (s : statics) : statics :=
  {| t2_encryption_status_address := t2_encryption_status_address s;
     t5_message_processor_address := t5_message_processor_address s;
     t5_max_message_size := t5_max_message_size s;
     t6_command_processor_address := t6_command_processor_address s;
     t7_powerconfig_address := t7_powerconfig_address s;
     t8_acquisitionconfig_address := t8_acquisitionconfig_address s;
     t44_message_count_address := t44_message_count_address s;
     t46_cte_config_address := t46_cte_config_address s;
     t100_multiple_touch_touchscreen_address := t100_multiple_touch_touchscreen_address s;
     t100_first_report_id := v;
     t100_second_report_id := t100_second_report_id s;
     t100_subsequent_report_ids := t100_subsequent_report_ids s;
     t100_num_reports := t100_num_reports s;
     cpi := cpi s;
     information := information s |}.
Definition set_t100_second_report_id (v : Z) (s : statics) : statics :=
  {| t2_encryption_status_address := t2_encryption_status_address s;
     t5_message_processor_address := t5_message_processor_address s;
     t5_max_message_size := t5_max_message_size s;
     t6_command_processor_address := t6_command_processor_address s;
     t7_powerconfig_address := t7_powerconfig_address s;
     t8_acquisitionconfig_address := t8_acquisitionconfig_address s;
     t44_message_count_address := t44_message_count_address s;
     t46_cte_config_address := t46_cte_config_address s;
     t100_multiple_touch_touchscreen_address := t100_multiple_touch_touchscreen_address s;
     t100_first_report_id := t100_first_report_id s;
     t100_second_report_id := v;
     t100_subsequent_report_ids := t100_subsequent_report_ids s;
     t100_num_reports := t100_num_reports s;
     cpi := cpi s;
     information := information s |}.
Definition set_t100_subsequent_report_ids (v : list Z) (s : statics) : statics :=
  {| t2_encryption_status_address := t2_encryption_status_address s;
     t5_message_processor_address := t5_message_processor_address s;
     t5_max_message_size := t5_max_message_size s;
     t6_command_processor_address := t6_command_processor_address s;
     t7_powerconfig_address := t7_powerconfig_address s;
     t8_acquisitionconfig_address := t8_acquisitionconfig_address s;
     t44_message_count_address := t44_message_count_address s;
     t46_cte_config_address := t46_cte_config_address s;
     t100_multiple_touch_touchscreen_address := t100_multiple_touch_touchscreen_address s;
     t100_first_report_id := t100_first_report_id s;
     t100_second_report_id := t100_second_report_id s;
     t100_subsequent_report_ids := v;
     t100_num_reports := t100_num_reports s;
     cpi := cpi s;
     information := information s |}.
Definition set_t100_num_reports (v : Z) (s : statics) : statics :=
  {| t2_encryption_status_address := t2_encryption_status_address s;
     t5_message_processor_address := t5_message_processor_address s;
     t5_max_message_size := t5_max_message_size s;
     t6_command_processor_address := t6_command_processor_address s;
     t7_powerconfig_address := t7_powerconfig_address s;
     t8_acquisitionconfig_address := t8_acquisitionconfig_address s;
     t44_message_count_address := t44_message_count_address s;
     t46_cte_config_address := t46_cte_config_address s;
     t100_multiple_touch_touchscreen_address := t100_multiple_touch_touchscreen_address s;
     t100_first_report_id := t100_first_report_id s;
     t100_second_report_id := t100_second_report_id s;
     t100_subsequent_report_ids := t100_subsequent_report_ids s;
     t100_num_reports := v;
     cpi := cpi s;
     information := information s |}.
Definition set_information (v : mxt_information_block) (s : statics) : statics :=
  {| t2_encryption_status_address := t2_encryption_status_address s;
     t5_message_processor_address := t5_message_processor_address s;
     t5_max_message_size := t5_max_message_size s;
     t6_command_processor_address := t6_command_processor_address s;
     t7_powerconfig_address := t7_powerconfig_address s;
     t8_acquisitionconfig_address := t8_acquisitionconfig_address s;
     t44_message_count_address := t44_message_count_address s;
     t46_cte_config_address := t46_cte_config_address s;
     t100_multiple_touch_touchscreen_address := t100_multiple_touch_touchscreen_address s;
     t100_first_report_id := t100_first_report_id s;
     t100_second_report_id := t100_second_report_id s;
     t100_subsequent_report_ids := t100_subsequent_report_ids s;
     t100_num_reports := t100_num_reports s;
     cpi := cpi s;
     information := v |}.

(** ** The digitizer report *)

Record finger_t := {
  confidence : bool;
  tip : bool;
  x : Z;
  y : Z
}.

Record digitizer_t := { fingers : list finger_t }.

Definition set_confidence (v : bool) (f : finger_t) : finger_t :=
  {| confidence := v; tip := tip f; x := x f; y := y f |}.
Definition set_tip (v : bool) (f : finger_t) : finger_t :=
  {| confidence := confidence f; tip := v; x := x f; y := y f |}.
Definition set_x (v : Z) (f : finger_t) : finger_t :=
  {| confidence := confidence f; tip := tip f; x := v; y := y f |}.
Definition set_y (v : Z) (f : finger_t) : finger_t :=
  {| confidence := confidence f; tip := tip f; x := x f; y := v |}.

(** ** A board to run the driver on *)

(** A header to run the driver on: register 0 for the information block, a
    60 mm x 40 mm sensor, and the flag and event-tag values of the chip's
    protocol. *)
Definition example_maxtouch_h : maxtouch_h :=
  {| MXT_REG_INFORMATION_BLOCK := 0;
     MXT_SENSOR_WIDTH_MM := 60;
     MXT_SENSOR_HEIGHT_MM := 40;
     DIGITIZER_INVERT_X := false;
     T7_CFG_ACTVPIPEEN := 2;
     T7_CFG_IDLEPIPEEN := 1;
     T100_CTRL_RPTEN := 2;
     T100_CTRL_ENABLE := 1;
     T100_CFG_SWITCHXY := 32;
     T100_CFG_INVERTY := 64;
     DOWN := 4;
     UP := 5;
     SUP := 3;
     DOWNSUP := 8;
     UNSUP := 2;
     DOWNUP := 9;
     sizeof_mxt_gen_powerconfig_t7 := 5;
     sizeof_mxt_gen_acquisitionconfig_t8 := 15;
     sizeof_mxt_spt_cteconfig_t46 := 12;
     sizeof_mxt_touch_multiscreen_t100 := 60 |}.

Definition bytes (l : list Z) : list byte := map byte_of_Z l.

(** A chip with four objects: T7 with one report id at 0x0110, T44 at
    0x0120, T5 at 0x0130 and T100 with seven report ids at 0x0200. *)
Definition example_table : bus :=
  {| script := [Ack (bytes [166; 2; 1; 0; 14; 24; 4]);
                Ack (bytes [7; 16; 1; 3; 0; 1]);
                Ack (bytes [44; 32; 1; 0; 0; 0]);
                Ack (bytes [5; 48; 1; 9; 0; 0]);
                Ack (bytes [100; 0; 2; 59; 0; 7])];
     log := [] |}.

(** The statics that resolution leaves on this chip, from the initial ones:
    T7 takes report id 1, T100 the ids 2 to 8. *)
Definition example_statics : statics :=
  {| t2_encryption_status_address := 0;
     t5_message_processor_address := 304;
     t5_max_message_size := 8;
     t6_command_processor_address := 0;
     t7_powerconfig_address := 272;
     t8_acquisitionconfig_address := 0;
     t44_message_count_address := 288;
     t46_cte_config_address := 0;
     t100_multiple_touch_touchscreen_address := 512;
     t100_first_report_id := 2;
     t100_second_report_id := 3;
     t100_subsequent_report_ids := [4; 5; 6; 7; 8];
     t100_num_reports := 5;
     cpi := MXT_DEFAULT_DPI;
     information := zero_information_block |}.

(** The same statics in a completion of the file whose object [information]
    holds the block of the chip, a matrix of 14 x 24. *)
Definition example_board_statics : statics :=
  set_information (as_information_block (bytes [166; 2; 1; 0; 14; 24; 4]))
    example_statics.

Definition inactive : finger_t :=
  {| confidence := false; tip := false; x := 0; y := 0 |}.
Definition all_inactive : digitizer_t :=
  {| fingers := [inactive; inactive; inactive; inactive; inactive] |}.

Section Driver.

Variable h : maxtouch_h.

(** ** read_object_table *)

(** The [for] loop of [case 100], after its initialisation
    [t100_num_reports = 0]: one test of the condition, the body, the
    increment.  [fuel] bounds the number of passes. *)
Fixpoint t100_report_ids_loop (fuel : nat) (object : mxt_object_table_element)
    (report_id : Z) (s : statics) : statics :=
  match fuel with
  | O => s
  | S fuel' =>
    if (t100_num_reports s <? NUM_FINGERS)
       && (t100_num_reports s <? u8 (report_ids_per_instance object))
    then
      let s1 :=
        set_t100_subsequent_report_ids
          (<[Z.to_nat (t100_num_reports s) :=
               wrap16 (report_id + 2 + t100_num_reports s)]>
             (t100_subsequent_report_ids s)) s in
      t100_report_ids_loop fuel' object report_id
        (set_t100_num_reports (wrap16 (t100_num_reports s1 + 1)) s1)
    else s
  end.

(** The [switch (object.type)]. *)
Definition object_switch (object : mxt_object_table_element) (address report_id : Z)
    (s : statics) : statics :=
  match u8 (type object) with
  | 2 => set_t2_encryption_status_address address s
  | 5 =>
    set_t5_max_message_size (wrap16 (u8 (size_minus_one object) - 1))
      (set_t5_message_processor_address address s)
  | 6 => set_t6_command_processor_address address s
  | 7 => set_t7_powerconfig_address address s
  | 8 => set_t8_acquisitionconfig_address address s
  | 44 => set_t44_message_count_address address s
  | 46 => set_t46_cte_config_address address s
  | 100 =>
    let s1 := set_t100_multiple_touch_touchscreen_address address s in
    let s2 := set_t100_first_report_id (wrap16 report_id) s1 in
    let s3 := set_t100_second_report_id (wrap16 (report_id + 1)) s2 in
    t100_report_ids_loop (Z.to_nat NUM_FINGERS) object report_id
      (set_t100_num_reports 0 s3)
  | _ => s
  end.

(** The locals of the walk over the object table, with the statics and the
    bus. *)
Record table_walk := {
  walk_report_id : Z;                  (* int report_id *)
  object_table_element_address : Z;    (* uint16_t *)
  walk_statics : statics;
  walk_bus : bus
}.

(** One pass of [for (int i = 0; i < information.num_objects; i++)].  The
    address and the counter advance inside the branch of a successful
    read. *)
Definition read_object_table_pass (w : table_walk) : table_walk :=
  let '(r, b1) :=
    I2C_Read (object_table_element_address w) sizeof_mxt_object_table_element
      (walk_bus w) in
  match r with
  | Ack buf =>
    let object := as_object_table_element buf in
    let address :=
      wrap16 (Z.lor (Z.shiftl (u8 (position_ms_byte object)) 8)
                    (u8 (position_ls_byte object))) in
    {| walk_report_id :=
         wrap_int (walk_report_id w
                   + u8 (report_ids_per_instance object)
                     * (u8 (instances_minus_one object) + 1));
       object_table_element_address :=
         wrap16 (object_table_element_address w + sizeof_mxt_object_table_element);
       walk_statics := object_switch object address (walk_report_id w) (walk_statics w);
       walk_bus := b1 |}
  | Nack status =>
    {| walk_report_id := walk_report_id w;
       object_table_element_address := object_table_element_address w;
       walk_statics := walk_statics w;
       walk_bus := printf (Failed_to_read_object_table_element status) b1 |}
  end.

Fixpoint read_object_table_loop (num_objects : nat) (w : table_walk) : table_walk :=
  match num_objects with
  | O => w
  | S n => read_object_table_loop n (read_object_table_pass w)
  end.

(** The walk that [read_object_table] makes once its local [information] is
    read: the counter starts at 1, the address right after the block. *)
Definition walk_object_table (information : mxt_information_block)
    (s : statics) (b : bus) : table_walk :=
  read_object_table_loop (Z.to_nat (u8 (num_objects information)))
    {| walk_report_id := 1;
       object_table_element_address := wrap16 sizeof_mxt_information_block;
       walk_statics := s;
       walk_bus := b |}.

Definition read_object_table (s : statics) (b : bus) : statics * bus :=
  let '(r, b1) :=
    I2C_Read (MXT_REG_INFORMATION_BLOCK h) sizeof_mxt_information_block b in
  match r with
  | Ack buf =>
    let information := as_information_block buf in
    let w := walk_object_table information s (printf (Found_MXT information) b1) in
    (walk_statics w, walk_bus w)
  | Nack status => (s, printf (Failed_to_read_object_table status) b1)
  end.

(** ** write_configuration *)

(** A zero-initialised buffer, and the buffer after a successful read. *)
Definition zero_buffer (length : Z) : list byte := repeat Byte.x00 (Z.to_nat length).
Definition filled_buffer (length : Z) (delivered : list byte) : list byte :=
  take (Z.to_nat length) (delivered ++ zero_buffer length).

Definition zero_t100 : mxt_touch_multiscreen_t100 :=
  {| t100_image := zero_buffer (sizeof_mxt_touch_multiscreen_t100 h);
     ctrl := 0; cfg1 := 0; scraux := 0; numtch := 0;
     xsize := 0; ysize := 0; xpitch := 0; ypitch := 0;
     gain := 0; dxgain := 0; tchthr := 0; mrgthr := 0; mrghyst := 0;
     movsmooth := 0; movfilter := 0; movhysti := 0; movhystn := 0;
     xrange := 0; yrange := 0 |}.

(** The assignments to [cfg] between the read and the write of the T100
    block.  [image] is what the read left in [cfg]. *)
Definition t100_configuration (s : statics) (image : list byte)
    : result mxt_touch_multiscreen_t100 :=
  xpitch_v ← int_div (MXT_SENSOR_WIDTH_MM h) (u8 (matrix_x_size (information s)));
  ypitch_v ← int_div (MXT_SENSOR_HEIGHT_MM h) (u8 (matrix_y_size (information s)));
  xrange_v ← CPI_TO_SAMPLES (cpi s) (MXT_SENSOR_HEIGHT_MM h);
  yrange_v ← CPI_TO_SAMPLES (cpi s) (MXT_SENSOR_WIDTH_MM h);
  Ok {| t100_image := image;
        ctrl := wrap8 (Z.lor (T100_CTRL_RPTEN h) (T100_CTRL_ENABLE h));
        cfg1 := wrap8 (if DIGITIZER_INVERT_X h
                       then Z.lor (T100_CFG_SWITCHXY h) (T100_CFG_INVERTY h)
                       else T100_CFG_SWITCHXY h);
        scraux := 1;
        numtch := wrap8 NUM_FINGERS;
        xsize := u8 (matrix_x_size (information s));
        ysize := u8 (matrix_y_size (information s));
        xpitch := wrap8 xpitch_v;
        ypitch := wrap8 ypitch_v;
        gain := wrap8 MXT_GAIN;
        dxgain := wrap8 MXT_DX_GAIN;
        tchthr := wrap8 MXT_TOUCH_THRESHOLD;
        mrgthr := 5;
        mrghyst := 5;
        movsmooth := 224;
        movfilter := Z.land 4 15;
        movhysti := 6;
        movhystn := 4;
        xrange := wrap16 xrange_v;
        yrange := wrap16 yrange_v |}.

(** The four blocks of [write_configuration], in program order. *)
Definition write_t7 (s : statics) (b : bus) : bus :=
  if t7_powerconfig_address s =? 0 then b
  else
    let t7 := {| idleacqint := 32; actacqint := 10; actv2idelto := 50;
                 t7_cfg := wrap8 (Z.lor (T7_CFG_ACTVPIPEEN h) (T7_CFG_IDLEPIPEEN h)) |} in
    snd (I2C_Write (t7_powerconfig_address s) (sizeof_mxt_gen_powerconfig_t7 h)
           (PAYLOAD_t7 t7) b).

Definition write_t8 (s : statics) (b : bus) : bus :=
  if t8_acquisitionconfig_address s =? 0 then b
  else
    snd (I2C_Write (t8_acquisitionconfig_address s)
           (sizeof_mxt_gen_acquisitionconfig_t8 h) PAYLOAD_t8 b).

Definition write_t46 (s : statics) (b : bus) : bus :=
  if t46_cte_config_address s =? 0 then b
  else
    snd (I2C_Write (t46_cte_config_address s) (sizeof_mxt_spt_cteconfig_t46 h)
           PAYLOAD_t46 b).

Definition write_t100 (s : statics) (b : bus) : result unit * bus :=
  if t100_multiple_touch_touchscreen_address s =? 0 then (Ok tt, b)
  else
    let '(r, b1) :=
      I2C_Read (t100_multiple_touch_touchscreen_address s)
        (sizeof_mxt_touch_multiscreen_t100 h) b in
    (* the status of the read is overwritten below without being looked at *)
    let image :=
      match r with
      | Ack buf => filled_buffer (sizeof_mxt_touch_multiscreen_t100 h) buf
      | Nack _ => t100_image zero_t100
      end in
    match t100_configuration s image with
    | UB e => (UB e, b1)
    | Ok cfg =>
      let '(w, b2) :=
        I2C_Write (t100_multiple_touch_touchscreen_address s)
          (sizeof_mxt_touch_multiscreen_t100 h) (PAYLOAD_t100 cfg) b1 in
      match w with
      | Ack _ => (Ok tt, b2)
      | Nack status => (Ok tt, printf (T100_Configuration_failed status) b2)
      end
    end.

Definition write_configuration (s : statics) (b : bus) : result unit * bus :=
  write_t100 s (write_t46 s (write_t8 s (write_t7 s b))).

(** [initialize]. *)
Definition initialize (s : statics) (b : bus) : statics * (result unit * bus) :=
  let '(s1, b1) := read_object_table s b in
  (s1, write_configuration s1 b1).

(** ** read_messages *)

Definition zero_message : mxt_message :=
  {| report_id := Byte.x00;
     data := [Byte.x00; Byte.x00; Byte.x00; Byte.x00; Byte.x00] |}.

(** [fingers[contact_id].field = v]: the element must exist. *)
Definition assign_finger (contact_id : Z) (f : finger_t -> finger_t)
    (d : digitizer_t) : result digitizer_t :=
  finger ← array_get ARRAY_fingers (fingers d) contact_id;
  Ok {| fingers := <[Z.to_nat contact_id := f finger]> (fingers d) |}.

(** How the [if / else if / else] chain of the loop body sorts a message. *)
Inductive message_class :=
| aggregate_report                 (* report_id == t100_first_report_id *)
| finger_report (contact_id : Z)   (* within the subsequent report ids *)
| unhandled_report.

(** The conditions of the chain, with the short circuit of [&&]. *)
Definition classify (s : statics) (message : mxt_message) : result message_class :=
  if u8 (report_id message) =? t100_first_report_id s then Ok aggregate_report
  else
    first_id ← array_get ARRAY_t100_subsequent_report_ids
                 (t100_subsequent_report_ids s) 0;
    if u8 (report_id message) >=? first_id then
      last_id ← array_get ARRAY_t100_subsequent_report_ids
                  (t100_subsequent_report_ids s) (t100_num_reports s - 1);
      if u8 (report_id message) <=? last_id then
        Ok (finger_report (wrap8 (u8 (report_id message) - first_id)))
      else Ok unhandled_report
    else Ok unhandled_report.

Definition message_event (message : mxt_message) : Z :=
  Z.land (u8 (byte_at 0 (data message))) 15.
Definition message_x (message : mxt_message) : Z :=
  wrap16 (Z.lor (u8 (byte_at 1 (data message)))
                (Z.shiftl (u8 (byte_at 2 (data message))) 8)).
Definition message_y (message : mxt_message) : Z :=
  wrap16 (Z.lor (u8 (byte_at 3 (data message)))
                (Z.shiftl (u8 (byte_at 4 (data message))) 8)).

(** The body of the [else if] branch. *)
Definition finger_update (contact_id : Z) (message : mxt_message)
    (d : digitizer_t) : result digitizer_t :=
  let event := message_event message in
  let x := message_x message in
  let y := message_y message in
  d1 ← (if event =? DOWN h then assign_finger contact_id (set_tip true) d
        else Ok d);
  d2 ← (if (event =? UP h) || (event =? UNSUP h) || (event =? DOWNUP h)
        then assign_finger contact_id (set_tip false) d1
        else Ok d1);
  d3 ← assign_finger contact_id
         (set_confidence (negb ((event =? SUP h) || (event =? DOWNSUP h)))) d2;
  if negb (event =? UP h) then
    d4 ← assign_finger contact_id (set_x x) d3;
    assign_finger contact_id (set_y y) d4
  else Ok d3.

(** The arguments of the diagnostic of the [else] branch, which index
    [t100_subsequent_report_ids] at 0, at [t100_num_reports] and at
    [t100_num_reports - 1] (taken from left to right). *)
Definition unhandled_diagnostic (s : statics) (message : mxt_message)
    : result diagnostic :=
  first_id ← array_get ARRAY_t100_subsequent_report_ids
               (t100_subsequent_report_ids s) 0;
  past_id ← array_get ARRAY_t100_subsequent_report_ids
              (t100_subsequent_report_ids s) (t100_num_reports s);
  last_id ← array_get ARRAY_t100_subsequent_report_ids
              (t100_subsequent_report_ids s) (t100_num_reports s - 1);
  Ok (Unhandled_ID (u8 (report_id message)) first_id past_id last_id).

(** What one message does to the report, and to the diagnostic output. *)
Definition handle_message (s : statics) (message : mxt_message)
    (d : digitizer_t) (b : bus) : result digitizer_t * bus :=
  match classify s message with
  | UB e => (UB e, b)
  | Ok aggregate_report => (Ok d, b)
  | Ok (finger_report contact_id) => (finger_update contact_id message d, b)
  | Ok unhandled_report =>
    match unhandled_diagnostic s message with
    | Ok diagnostic => (Ok d, printf diagnostic b)
    | UB e => (UB e, b)
    end
  end.

(** [for (int i = 0; i < message_count.count; i++)].  The status of the
    message read is not looked at: after a failed read the message is the
    zero-initialised one. *)
Fixpoint read_messages_loop (count : nat) (s : statics) (d : digitizer_t)
    (b : bus) : result digitizer_t * bus :=
  match count with
  | O => (Ok d, b)
  | S n =>
    let '(r, b1) :=
      I2C_Read (t5_message_processor_address s) sizeof_mxt_message b in
    let message :=
      match r with
      | Ack buf => as_message buf
      | Nack _ => zero_message
      end in
    match handle_message s message d b1 with
    | (Ok d', b2) => read_messages_loop n s d' b2
    | (UB e, b2) => (UB e, b2)
    end
  end.

Definition read_messages (s : statics) (digitizer_report : digitizer_t)
    (b : bus) : result digitizer_t * bus :=
  if t44_message_count_address s =? 0 then (Ok digitizer_report, b)
  else
    let '(r, b1) :=
      I2C_Read (t44_message_count_address s) sizeof_mxt_message_count b in
    match r with
    | Ack buf =>
      read_messages_loop (Z.to_nat (u8 (count (as_message_count buf)))) s
        digitizer_report b1
    | Nack _ => (Ok digitizer_report, b1)
    end.

(** ** What the claims speak about *)

(** The report ids an entry of the object table consumes. *)
Definition report_ids_consumed (object : mxt_object_table_element) : Z :=
  u8 (report_ids_per_instance object) * (u8 (instances_minus_one object) + 1).

(** The entries that [n] passes of the walk read successfully, given the
    answers of the device: a pass whose read fails reads nothing. *)
Fixpoint entries_read (n : nat) (replies : list reply)
    : list mxt_object_table_element :=
  match n, replies with
  | S n', Ack buf :: rest => as_object_table_element buf :: entries_read n' rest
  | S n', Nack _ :: rest => entries_read n' rest
  | _, _ => []
  end.

Definition sum_Z (l : list Z) : Z := fold_right Z.add 0 l.

(** Rounding to the nearest integer, a half going away from zero, of a
    rational: the rounding the specification names, written from its words. *)
Definition round_half_away_from_zero (q : Q) : Z :=
  if Qle_bool 0 q then Qfloor (q + (1 # 2)) else Qceiling (q - (1 # 2)).

(** The address map: the statics that hold a resolved address, zero meaning
    absent. *)
Definition resolved_addresses (s : statics) : list Z :=
  [t2_encryption_status_address s; t5_message_processor_address s;
   t6_command_processor_address s; t7_powerconfig_address s;
   t8_acquisitionconfig_address s; t44_message_count_address s;
   t46_cte_config_address s; t100_multiple_touch_touchscreen_address s].

Definition is_read (o : op) : bool :=
  match o with Rd _ _ => true | _ => false end.
Definition is_write (o : op) : bool :=
  match o with Wr _ _ _ => true | _ => false end.

(** The reads and the writes among some operations. *)
Definition reads (l : list op) : list op := List.filter is_read l.
Definition writes (l : list op) : list op := List.filter is_write l.

(** The message count a call of [read_messages] is given: what the device
    answers to the read of the message-count object, nothing when that object
    is unresolved or its read fails. *)
Definition declared_count (s : statics) (b : bus) : Z :=
  if t44_message_count_address s =? 0 then 0
  else
    match fst (next_reply b) with
    | Ack buf => u8 (count (as_message_count buf))
    | Nack _ => 0
    end.

(** What the assignments of the [else if] branch make of the finger they
    address, when that finger exists. *)
Definition finger_after (message : mxt_message) (f : finger_t) : finger_t :=
  let event := message_event message in
  let f1 := if event =? DOWN h then set_tip true f else f in
  let f2 := if (event =? UP h) || (event =? UNSUP h) || (event =? DOWNUP h)
            then set_tip false f1 else f1 in
  let f3 := set_confidence (negb ((event =? SUP h) || (event =? DOWNSUP h))) f2 in
  if negb (event =? UP h) then set_y (message_y message) (set_x (message_x message) f3)
  else f3.

(** What resolution maintains about the per-finger ids: the array has its
    declared size, at most [NUM_FINGERS] ids are assigned, and the assigned
    ones are consecutive values of one counter, converted to [uint16_t]. *)
Definition report_ids_consistent (s : statics) : Prop :=
  length (t100_subsequent_report_ids s) = Z.to_nat NUM_FINGERS
  /\ 0 <= t100_num_reports s <= NUM_FINGERS
  /\ exists r, forall k, 0 <= k < t100_num_reports s ->
       t100_subsequent_report_ids s !! Z.to_nat k = Some (wrap16 (r + 2 + k)).

(** The addresses read, in program order. *)
Definition read_addresses (l : list op) : list Z :=
  flat_map (fun o => match o with Rd address _ => [address] | _ => [] end) l.

(** The number of successful answers among some answers. *)
Definition acks (replies : list reply) : Z :=
  Z.of_nat (length (List.filter (fun r => match r with Ack _ => true | Nack _ => false end)
                      replies)).

(** Each element is below all the later ones. *)
Definition strictly_increasing (l : list Z) : Prop :=
  forall (i j : nat) (a c : Z),
    (i < j)%nat -> l !! i = Some a -> l !! j = Some c -> a < c.


(** ** Further notions, for the rest of the code *)

(** The static that holds the address of an object type the driver
    recognises. *)
Definition address_of_type (t : Z) (s : statics) : option Z :=
  match t with
  | 2 => Some (t2_encryption_status_address s)
  | 5 => Some (t5_message_processor_address s)
  | 6 => Some (t6_command_processor_address s)
  | 7 => Some (t7_powerconfig_address s)
  | 8 => Some (t8_acquisitionconfig_address s)
  | 44 => Some (t44_message_count_address s)
  | 46 => Some (t46_cte_config_address s)
  | 100 => Some (t100_multiple_touch_touchscreen_address s)
  | _ => None
  end.

(** The address an entry of the object table declares, as a number. *)
Definition entry_address (object : mxt_object_table_element) : Z :=
  256 * u8 (position_ms_byte object) + u8 (position_ls_byte object).

(** Resolution of a list of entries, the counter advancing from one to the
    next. *)
Fixpoint resolve_entries (entries : list mxt_object_table_element)
    (report_id : Z) (s : statics) : statics :=
  match entries with
  | [] => s
  | object :: rest =>
    resolve_entries rest (report_id + report_ids_consumed object)
      (object_switch object (entry_address object) report_id s)
  end.

(** The addresses written and the diagnostics printed, in program order. *)
Definition write_addresses (l : list op) : list Z :=
  flat_map (fun o => match o with Wr address _ _ => [address] | _ => [] end) l.
Definition diagnostics (l : list op) : list diagnostic :=
  flat_map (fun o => match o with Printf d => [d] | _ => [] end) l.

Definition nonzero (z : Z) : bool := negb (z =? 0).

(** * Properties *)

Lemma u8_range (b : byte) : 0 <= u8 b <= 255.
Proof.
  unfold u8. pose proof (Byte.to_N_bounded b). lia.
Qed.

Lemma bind_Ok_inv {A B} (r : result A) (k : A -> result B) (v : B) :
  r ≫= k = Ok v -> exists a, r = Ok a /\ k a = Ok v.
Proof.
  destruct r as [a|e]; cbn; [eauto | discriminate].
Qed.

Lemma wrap_int_small (z : Z) : - 2 ^ 31 <= z <= INT_MAX -> wrap_int z = z.
Proof.
  unfold wrap_int, INT_MAX. intros Hz.
  rewrite Z.mod_small; lia.
Qed.

Lemma wrap16_small (z : Z) : 0 <= z < 65536 -> wrap16 z = z.
Proof.
  intros Hz. unfold wrap16. apply Z.mod_small. lia.
Qed.

Lemma wrap8_small (z : Z) : 0 <= z < 256 -> wrap8 z = z.
Proof.
  intros Hz. unfold wrap8. apply Z.mod_small. lia.
Qed.

Lemma report_ids_consumed_range (object : mxt_object_table_element) :
  0 <= report_ids_consumed object <= 65280.
Proof.
  unfold report_ids_consumed.
  pose proof (u8_range (report_ids_per_instance object)).
  pose proof (u8_range (instances_minus_one object)).
  nia.
Qed.

Lemma I2C_Read_script (address length : Z) (b : bus) :
  script (snd (I2C_Read address length b)) = snd (next_reply b)
  /\ fst (I2C_Read address length b) = fst (next_reply b).
Proof.
  unfold I2C_Read. destruct (next_reply b); auto.
Qed.

(** After a successful read of the information block, [read_object_table] is
    the walk over the object table. *)
Lemma read_object_table_Ack (s : statics) (b : bus) (buf : list byte) :
  fst (next_reply b) = Ack buf ->
  let b1 := snd (I2C_Read (MXT_REG_INFORMATION_BLOCK h)
                   sizeof_mxt_information_block b) in
  let w := walk_object_table (as_information_block buf) s
             (printf (Found_MXT (as_information_block buf)) b1) in
  read_object_table s b = (walk_statics w, walk_bus w).
Proof.
  intros Hr. unfold read_object_table, I2C_Read.
  destruct (next_reply b) as [r rest]. cbn [fst] in Hr. subst r. reflexivity.
Qed.

(** The counter after [n] passes, as long as [int] has room for the largest
    possible advance of every pass. *)
Lemma read_object_table_loop_report_id (n : nat) (w : table_walk) :
  0 <= walk_report_id w ->
  walk_report_id w + 65280 * Z.of_nat n <= INT_MAX ->
  walk_report_id (read_object_table_loop n w)
  = walk_report_id w
    + sum_Z (map report_ids_consumed (entries_read n (script (walk_bus w)))).
Proof.
  revert w. induction n as [|n IH]; intros w Hlo Hhi.
  - simpl. lia.
  - cbn [read_object_table_loop]. unfold read_object_table_pass, I2C_Read, next_reply.
    destruct (script (walk_bus w)) as [|[status|buf] rest] eqn:Hs.
    + rewrite IH; cbn [walk_report_id walk_bus script printf]; try lia.
      destruct n; reflexivity.
    + rewrite IH; cbn [walk_report_id walk_bus script printf]; try lia.
      reflexivity.
    + pose proof (report_ids_consumed_range (as_object_table_element buf)) as Hr.
      unfold report_ids_consumed in Hr.
      rewrite IH; cbn [walk_report_id walk_bus script];
        rewrite wrap_int_small by (unfold INT_MAX in *; lia); try lia.
      cbn [entries_read map sum_Z fold_right]. unfold report_ids_consumed, sum_Z. lia.
Qed.

(** C1.  The event-id counter of the walk over the object table starts at 1
    and every entry that is read successfully advances it by
    reports-per-instance x (instances + 1), whatever the type of the entry:
    after the walk the counter is 1 plus the sum of these advances over all
    the entries read (the [int] counter never overflows). *)
Theorem report_id_counter_after_walk (information : mxt_information_block)
    (s : statics) (b : bus) :
  walk_report_id (walk_object_table information s b)
  = 1 + sum_Z (map report_ids_consumed
                 (entries_read (Z.to_nat (u8 (num_objects information)))
                    (script b))).
Proof.
  unfold walk_object_table.
  pose proof (u8_range (num_objects information)) as Hn.
  rewrite read_object_table_loop_report_id; cbn [walk_report_id walk_bus].
  - reflexivity.
  - lia.
  - unfold INT_MAX. rewrite Z2Nat.id by lia. lia.
Qed.

(** The quotient that [DIVIDE_UNSIGNED_ROUND] computes, on a non-negative
    numerator and a positive denominator, is the rounded one. *)
Lemma rounded_quotient (n d : Z) :
  0 <= n -> 0 < d ->
  Z.quot (n + Z.quot d 2) d
  = round_half_away_from_zero (inject_Z n / inject_Z d).
Proof.
  intros Hn Hd. unfold round_half_away_from_zero.
  assert (Hq : (0 <= inject_Z n / inject_Z d)%Q).
  { apply Qle_shift_div_l.
    - change 0%Q with (inject_Z 0). rewrite <- Zlt_Qlt. lia.
    - rewrite Qmult_0_l. change 0%Q with (inject_Z 0). rewrite <- Zle_Qle. lia. }
  apply Qle_bool_iff in Hq. rewrite Hq.
  assert (He : (inject_Z n / inject_Z d + (1 # 2)
                == inject_Z (2 * n + d) / inject_Z (2 * d))%Q).
  { rewrite !inject_Z_plus, !inject_Z_mult. field.
    change 0%Q with (inject_Z 0). rewrite inject_Z_injective. lia. }
  rewrite He, <- Zdiv_Qdiv.
  rewrite (Z.quot_div_nonneg d 2) by lia.
  assert (0 <= d / 2) by (apply Z.div_pos; lia).
  rewrite Z.quot_div_nonneg by lia.
  pose proof (Z.div_mod d 2 ltac:(lia)) as E2.
  pose proof (Z.mod_pos_bound d 2 ltac:(lia)) as B2.
  apply Z.div_unique with (r := 2 * ((n + d / 2) mod d) + d mod 2).
  - left. pose proof (Z.mod_pos_bound (n + d / 2) d Hd). lia.
  - pose proof (Z.div_mod (n + d / 2) d ltac:(lia)). nia.
Qed.

Lemma int_val_Ok (z : Z) : - 2 ^ 31 <= z <= INT_MAX -> int_val z = Ok z.
Proof.
  intros Hz. unfold int_val.
  destruct (Z.leb_spec (- 2 ^ 31) z); [|lia].
  destruct (Z.leb_spec z INT_MAX); [|lia]. reflexivity.
Qed.

Lemma int_div_Ok (a b : Z) : b <> 0 -> int_div a b = Ok (Z.quot a b).
Proof.
  intros Hb. unfold int_div. destruct (Z.eqb_spec b 0); [contradiction|reflexivity].
Qed.

(** The macro is defined, with the value of its expression, when numerator,
    denominator and their sum are non-negative values of [int]. *)
Lemma DIVIDE_UNSIGNED_ROUND_Ok (n d : Z) :
  0 <= n -> 0 < d -> d <= INT_MAX -> n + Z.quot d 2 <= INT_MAX ->
  DIVIDE_UNSIGNED_ROUND n d = Ok (Z.quot (n + Z.quot d 2) d).
Proof.
  intros Hn Hd Hdmax Hsum. unfold DIVIDE_UNSIGNED_ROUND.
  assert (Hh : 0 <= Z.quot d 2) by (apply Z.quot_pos; lia).
  rewrite int_div_Ok by lia. cbn [mbind result_bind].
  rewrite int_val_Ok by (unfold INT_MAX in *; lia). cbn [mbind result_bind].
  rewrite int_div_Ok by lia. cbn [mbind result_bind].
  apply int_val_Ok.
  assert (0 <= Z.quot (n + Z.quot d 2) d) by (apply Z.quot_pos; lia).
  assert (Z.quot (n + Z.quot d 2) d <= n + Z.quot d 2).
  { rewrite Z.quot_div_nonneg by lia.
    apply Z.div_le_upper_bound; [lia|]. nia. }
  unfold INT_MAX in *. lia.
Qed.

Lemma CPI_TO_SAMPLES_Ok (cpi_v dist_in_mm : Z) :
  0 <= cpi_v -> 0 <= dist_in_mm ->
  cpi_v * dist_in_mm * 10 + 127 <= INT_MAX ->
  CPI_TO_SAMPLES cpi_v dist_in_mm
  = Ok (Z.quot (cpi_v * dist_in_mm * 10 + 127) 254).
Proof.
  intros Hc Hd Hmax. unfold CPI_TO_SAMPLES.
  assert (0 <= cpi_v * dist_in_mm) by nia.
  rewrite int_val_Ok by (unfold INT_MAX in *; lia). cbn [mbind result_bind].
  rewrite int_val_Ok by (unfold INT_MAX in *; lia). cbn [mbind result_bind].
  rewrite DIVIDE_UNSIGNED_ROUND_Ok;
    change (Z.quot 254 2) with 127; unfold INT_MAX in *; try lia.
  reflexivity.
Qed.

Lemma SAMPLES_TO_CPI_Ok (samples dist_in_mm : Z) :
  0 <= samples -> 0 < dist_in_mm ->
  dist_in_mm * 10 <= INT_MAX ->
  samples * 254 + 5 * dist_in_mm <= INT_MAX ->
  SAMPLES_TO_CPI samples dist_in_mm
  = Ok (Z.quot (samples * 254 + 5 * dist_in_mm) (dist_in_mm * 10)).
Proof.
  intros Hs Hd Hdmax Hmax. unfold SAMPLES_TO_CPI.
  assert (Hhalf : Z.quot (dist_in_mm * 10) 2 = 5 * dist_in_mm)
    by (rewrite Z.quot_div_nonneg by lia;
        symmetry; apply Z.div_unique with (r := 0); lia).
  rewrite int_val_Ok by (unfold INT_MAX in *; lia). cbn [mbind result_bind].
  rewrite int_val_Ok by (unfold INT_MAX in *; lia). cbn [mbind result_bind].
  rewrite DIVIDE_UNSIGNED_ROUND_Ok; rewrite ?Hhalf; try lia.
  reflexivity.
Qed.

(** C6.  On a non-negative resolution and a positive distance, as long as
    the [int] arithmetic of the macros does not overflow, the two
    conversions are the quotients cpi x distance_mm x 10 / 254 and
    samples x 254 / (distance_mm x 10) rounded to the nearest integer, a half
    going away from zero; and converting 600 cpi over 40 mm to samples and
    back gives a value within 1 of 600. *)
Theorem cpi_samples_conversions_round (cpi_v samples dist_in_mm : Z) :
  0 <= cpi_v -> 0 <= samples -> 0 < dist_in_mm ->
  cpi_v * dist_in_mm * 10 + 127 <= INT_MAX ->
  samples * 254 + 5 * dist_in_mm <= INT_MAX ->
  dist_in_mm * 10 <= INT_MAX ->
  CPI_TO_SAMPLES cpi_v dist_in_mm
  = Ok (round_half_away_from_zero
          (inject_Z (cpi_v * dist_in_mm * 10) / inject_Z 254))
  /\ SAMPLES_TO_CPI samples dist_in_mm
     = Ok (round_half_away_from_zero
             (inject_Z (samples * 254) / inject_Z (dist_in_mm * 10)))
  /\ exists cpi_back,
       (samples_v ← CPI_TO_SAMPLES 600 40; SAMPLES_TO_CPI samples_v 40)
       = Ok cpi_back
       /\ Z.abs (cpi_back - 600) <= 1.
Proof.
  intros Hc Hs Hd Hcmax Hsmax Hdmax.
  split; [|split].
  - rewrite CPI_TO_SAMPLES_Ok by lia. f_equal.
    rewrite <- rounded_quotient by nia. reflexivity.
  - rewrite SAMPLES_TO_CPI_Ok by lia. f_equal.
    rewrite <- rounded_quotient by nia.
    rewrite (Z.quot_div_nonneg (dist_in_mm * 10) 2) by lia.
    replace (dist_in_mm * 10 / 2) with (5 * dist_in_mm)
      by (apply Z.div_unique with (r := 0); lia).
    reflexivity.
  - exists 600. split; [reflexivity|]. vm_compute. discriminate.
Qed.

(** C7.  When the read of the information block fails, resolution from the
    initial statics leaves every address absent (and writes nothing), and
    [write_configuration] then does nothing at all on the bus. *)
Theorem header_failure_resolves_nothing (b : bus) (status : Z) :
  fst (next_reply b) = Nack status ->
  let s := fst (read_object_table initial_statics b) in
  let b1 := snd (read_object_table initial_statics b) in
  Forall (fun address => address = 0) (resolved_addresses s)
  /\ writes (log b1) = writes (log b)
  /\ write_configuration s b1 = (Ok tt, b1).
Proof.
  intros Hr. unfold read_object_table, I2C_Read.
  destruct (next_reply b) as [r rest]. simpl in Hr. subst r.
  cbn [fst snd]. split; [|split].
  - repeat constructor.
  - unfold writes, printf. cbn [log].
    rewrite <- !app_assoc, List.filter_app. cbn. apply app_nil_r.
  - reflexivity.
Qed.

Lemma handle_message_log (s : statics) (message : mxt_message)
    (d : digitizer_t) (b : bus) :
  script (snd (handle_message s message d b)) = script b
  /\ exists ops, log (snd (handle_message s message d b)) = log b ++ ops
                 /\ reads ops = [].
Proof.
  unfold handle_message.
  destruct (classify s message) as [[| |]|];
    try destruct (unhandled_diagnostic s message);
    cbn [snd printf script log];
    split; trivial; try (exists []; rewrite app_nil_r; split; reflexivity).
  eexists. split; reflexivity.
Qed.

Lemma read_messages_loop_reads (n : nat) (s : statics) (d : digitizer_t) (b : bus) :
  exists ops, log (snd (read_messages_loop n s d b)) = log b ++ ops
              /\ (length (reads ops) <= n)%nat.
Proof.
  revert d b. induction n as [|n IH]; intros d b.
  - exists []. cbn. rewrite app_nil_r. split; [reflexivity | lia].
  - cbn [read_messages_loop]. unfold I2C_Read.
    destruct (next_reply b) as [r rest].
    set (message := match r with Ack buf => as_message buf | Nack _ => zero_message end).
    set (b1 := {| script := rest; log := log b ++ [Rd (t5_message_processor_address s) sizeof_mxt_message] |}).
    destruct (handle_message_log s message d b1) as [_ (ops1 & Hl1 & Hr1)].
    destruct (handle_message s message d b1) as [[d'|e] b2]; cbn [snd] in Hl1.
    + destruct (IH d' b2) as (ops2 & Hl2 & Hr2).
      exists ([Rd (t5_message_processor_address s) sizeof_mxt_message] ++ ops1 ++ ops2).
      split.
      * rewrite Hl2, Hl1. subst b1. cbn [log]. rewrite <- !app_assoc. reflexivity.
      * unfold reads in *. rewrite !List.filter_app, Hr1. cbn. lia.
    + exists ([Rd (t5_message_processor_address s) sizeof_mxt_message] ++ ops1).
      split.
      * cbn [snd]. rewrite Hl1. subst b1. cbn [log]. rewrite <- !app_assoc. reflexivity.
      * unfold reads in *. rewrite !List.filter_app, Hr1. cbn. lia.
Qed.

Lemma read_messages_loop_0 (s : statics) (d : digitizer_t) (b : bus) :
  read_messages_loop 0 s d b = (Ok d, b).
Proof. reflexivity. Qed.

(** C8.  A call of [read_messages] reads the message count at most once and
    then at most as many messages as that count declares; when the declared
    count is zero (a count of zero, an unresolved message-count object or a
    failed read of the count) the report comes back unchanged. *)
Theorem read_messages_reads_at_most_declared (s : statics)
    (digitizer_report : digitizer_t) (b : bus) :
  exists ops,
    log (snd (read_messages s digitizer_report b)) = log b ++ ops
    /\ Z.of_nat (length (reads ops))
       <= (if t44_message_count_address s =? 0 then 0 else 1) + declared_count s b
    /\ (declared_count s b = 0 ->
        fst (read_messages s digitizer_report b) = Ok digitizer_report).
Proof.
  unfold read_messages, declared_count.
  destruct (t44_message_count_address s =? 0).
  - exists []. cbn. rewrite app_nil_r. repeat split; lia.
  - unfold I2C_Read. destruct (next_reply b) as [[status|buf] rest]; cbn [fst snd].
    + eexists. cbn [log]. repeat split. cbn. lia.
    + set (b1 := {| script := rest; log := _ |}).
      destruct (read_messages_loop_reads
                  (Z.to_nat (u8 (count (as_message_count buf)))) s digitizer_report b1)
        as (ops & Hl & Hr).
      exists ([Rd (t44_message_count_address s) sizeof_mxt_message_count] ++ ops).
      pose proof (u8_range (count (as_message_count buf))).
      split; [|split].
      * rewrite Hl. subst b1. cbn [log]. rewrite <- app_assoc. reflexivity.
      * unfold reads in *. rewrite List.filter_app, length_app.
        cbn [List.filter is_read length]. lia.
      * intros H0. rewrite H0. reflexivity.
Qed.

(** C10.  [write_configuration] does not look at the status of its read of
    the current T100 record.  When that read fails (T100 resolved, matrix
    sizes not zero, resolution and sensor sizes in range so that the
    assignments are defined), the call returns normally and what it does on
    the bus after the T46 block is exactly: the read, then the write of the
    zero-initialised record with the fields the driver assigns, then the
    diagnostic of the write if the write fails.  Nothing is skipped and
    nothing is printed about the read. *)
Theorem write_configuration_ignores_t100_read_status (s : statics) (b : bus)
    (status : Z) :
  let b1 := write_t46 s (write_t8 s (write_t7 s b)) in
  let address := t100_multiple_touch_touchscreen_address s in
  let length := sizeof_mxt_touch_multiscreen_t100 h in
  let cfg :=
    {| t100_image := zero_buffer length;
       ctrl := wrap8 (Z.lor (T100_CTRL_RPTEN h) (T100_CTRL_ENABLE h));
       cfg1 := wrap8 (if DIGITIZER_INVERT_X h
                      then Z.lor (T100_CFG_SWITCHXY h) (T100_CFG_INVERTY h)
                      else T100_CFG_SWITCHXY h);
       scraux := 1;
       numtch := 5;
       xsize := u8 (matrix_x_size (information s));
       ysize := u8 (matrix_y_size (information s));
       xpitch := wrap8 (Z.quot (MXT_SENSOR_WIDTH_MM h)
                          (u8 (matrix_x_size (information s))));
       ypitch := wrap8 (Z.quot (MXT_SENSOR_HEIGHT_MM h)
                          (u8 (matrix_y_size (information s))));
       gain := 4;
       dxgain := 255;
       tchthr := 18;
       mrgthr := 5;
       mrghyst := 5;
       movsmooth := 224;
       movfilter := 4;
       movhysti := 6;
       movhystn := 4;
       xrange := wrap16 (Z.quot (cpi s * MXT_SENSOR_HEIGHT_MM h * 10 + 127) 254);
       yrange := wrap16 (Z.quot (cpi s * MXT_SENSOR_WIDTH_MM h * 10 + 127) 254) |} in
  let after_read :=
    {| script := snd (next_reply b1); log := log b1 ++ [Rd address length] |} in
  let after_write :=
    {| script := snd (next_reply after_read);
       log := log after_read ++ [Wr address length (PAYLOAD_t100 cfg)] |} in
  address <> 0 ->
  fst (next_reply b1) = Nack status ->
  u8 (matrix_x_size (information s)) <> 0 ->
  u8 (matrix_y_size (information s)) <> 0 ->
  0 <= cpi s < 65536 ->
  0 <= MXT_SENSOR_WIDTH_MM h <= 3276 ->
  0 <= MXT_SENSOR_HEIGHT_MM h <= 3276 ->
  write_configuration s b
  = (Ok tt,
     match fst (next_reply after_read) with
     | Ack _ => after_write
     | Nack write_status =>
       printf (T100_Configuration_failed write_status) after_write
     end).
Proof.
  intros b1 address length cfg after_read after_write Ha Hr Hx Hy Hc Hw Hh.
  unfold write_configuration, write_t100. fold b1. fold address. fold length.
  destruct (Z.eqb_spec address 0) as [|_]; [contradiction|].
  unfold I2C_Read. destruct (next_reply b1) as [r rest] eqn:Hb1.
  cbn [fst] in Hr. subst r.
  cbn [zero_t100 t100_image]. fold length.
  unfold t100_configuration.
  rewrite !int_div_Ok by assumption.
  assert (cpi s * MXT_SENSOR_HEIGHT_MM h * 10 <= 2146926600) by nia.
  assert (cpi s * MXT_SENSOR_WIDTH_MM h * 10 <= 2146926600) by nia.
  rewrite !CPI_TO_SAMPLES_Ok by (unfold INT_MAX; lia).
  cbn [mbind result_bind]. fold cfg.
  subst after_write after_read. cbn [snd].
  unfold I2C_Write. cbn [fst snd script log].
  destruct (next_reply {| script := rest; log := log b1 ++ [Rd address length] |})
    as [[write_status|buf] rest2]; reflexivity.
Qed.

(** *** The finger branch *)

Lemma assign_finger_Some (contact_id : Z) (g : finger_t -> finger_t)
    (d : digitizer_t) (f : finger_t) :
  0 <= contact_id ->
  fingers d !! Z.to_nat contact_id = Some f ->
  assign_finger contact_id g d
  = Ok {| fingers := <[Z.to_nat contact_id := g f]> (fingers d) |}.
Proof.
  intros Hc Hf. unfold assign_finger, array_get.
  destruct (Z.leb_spec 0 contact_id); [|lia].
  rewrite Hf. reflexivity.
Qed.

Lemma assign_finger_None (contact_id : Z) (g : finger_t -> finger_t)
    (d : digitizer_t) :
  fingers d !! Z.to_nat contact_id = None ->
  assign_finger contact_id g d = UB (out_of_bounds ARRAY_fingers contact_id).
Proof.
  intros Hf. unfold assign_finger, array_get.
  destruct (0 <=? contact_id); [rewrite Hf|]; reflexivity.
Qed.

(** With an index inside the report, the branch is defined and rewrites
    exactly the finger it addresses. *)
Lemma finger_update_Some (contact_id : Z) (message : mxt_message)
    (d : digitizer_t) (f : finger_t) :
  0 <= contact_id ->
  fingers d !! Z.to_nat contact_id = Some f ->
  finger_update contact_id message d
  = Ok {| fingers := <[Z.to_nat contact_id := finger_after message f]> (fingers d) |}.
Proof.
  intros Hc Hf. pose proof (lookup_lt_Some _ _ _ Hf) as Hlt.
  unfold finger_update, finger_after.
  destruct (message_event message =? DOWN h);
    destruct ((message_event message =? UP h) || (message_event message =? UNSUP h)
              || (message_event message =? DOWNUP h));
    destruct (negb (message_event message =? UP h));
    repeat first
      [ erewrite assign_finger_Some by
          (try exact Hc; cbn [fingers];
           first [exact Hf | apply list_lookup_insert_eq; rewrite ?length_insert; exact Hlt])
      | progress cbn [mbind result_bind fingers]
      | rewrite list_insert_insert_eq ];
    reflexivity.
Qed.

(** With an index outside the report, the branch is undefined. *)
Lemma finger_update_None (contact_id : Z) (message : mxt_message) (d : digitizer_t) :
  fingers d !! Z.to_nat contact_id = None ->
  finger_update contact_id message d = UB (out_of_bounds ARRAY_fingers contact_id).
Proof.
  intros Hf. unfold finger_update.
  destruct (message_event message =? DOWN h);
    destruct ((message_event message =? UP h) || (message_event message =? UNSUP h)
              || (message_event message =? DOWNUP h));
    rewrite ?(assign_finger_None _ _ _ Hf); cbn [mbind result_bind];
    rewrite ?(assign_finger_None _ _ _ Hf); reflexivity.
Qed.

(** C5.  A message of the finger branch recomputes the confidence of its
    finger as the negation of (tag is SUP or DOWNSUP); a SUP message (SUP
    being none of the tags that touch the tip) leaves confidence false and
    the tip as it was. *)
Theorem confidence_recomputed_every_record (s : statics) (message : mxt_message)
    (d : digitizer_t) (b : bus) (contact_id : Z) (f : finger_t) :
  classify s message = Ok (finger_report contact_id) ->
  0 <= contact_id ->
  fingers d !! Z.to_nat contact_id = Some f ->
  exists d' f',
    handle_message s message d b = (Ok d', b)
    /\ fingers d' !! Z.to_nat contact_id = Some f'
    /\ confidence f'
       = negb ((message_event message =? SUP h)
               || (message_event message =? DOWNSUP h))
    /\ (message_event message = SUP h ->
        SUP h <> DOWN h -> SUP h <> UP h -> SUP h <> UNSUP h -> SUP h <> DOWNUP h ->
        confidence f' = false /\ tip f' = tip f).
Proof.
  intros Hclass Hc Hf. pose proof (lookup_lt_Some _ _ _ Hf) as Hlt.
  unfold handle_message. rewrite Hclass.
  rewrite (finger_update_Some _ _ _ _ Hc Hf).
  eexists. exists (finger_after message f).
  split; [reflexivity|]. cbn [fingers].
  split; [apply list_lookup_insert_eq; exact Hlt|].
  split.
  - unfold finger_after.
    destruct (negb (message_event message =? UP h)); reflexivity.
  - intros He H1 H2 H3 H4. unfold finger_after. rewrite He.
    rewrite Z.eqb_refl.
    destruct (Z.eqb_spec (SUP h) (DOWN h)); [contradiction|].
    destruct (Z.eqb_spec (SUP h) (UP h)); [contradiction|].
    destruct (Z.eqb_spec (SUP h) (UNSUP h)); [contradiction|].
    destruct (Z.eqb_spec (SUP h) (DOWNUP h)); [contradiction|].
    split; reflexivity.
Qed.

(** C4.  From any report (so from one whose fingers are all inactive), a DOWN
    message for a finger of the report at (100,200) followed by an UP message
    for the same finger leaves that finger with tip false, confidence true and
    the position (100,200): the UP message clears the tip and keeps the
    position.  The tags UP, DOWN, SUP and DOWNSUP are taken distinct. *)
Theorem down_then_up_keeps_position (s : statics) (d : digitizer_t) (b : bus)
    (down up : list byte) (rest : list reply) (contact_id : Z) :
  UP h <> DOWN h -> UP h <> SUP h -> UP h <> DOWNSUP h ->
  script b = Ack down :: Ack up :: rest ->
  classify s (as_message down) = Ok (finger_report contact_id) ->
  classify s (as_message up) = Ok (finger_report contact_id) ->
  0 <= contact_id ->
  is_Some (fingers d !! Z.to_nat contact_id) ->
  message_event (as_message down) = DOWN h ->
  message_x (as_message down) = 100 ->
  message_y (as_message down) = 200 ->
  message_event (as_message up) = UP h ->
  exists d2,
    fst (read_messages_loop 2 s d b) = Ok d2
    /\ fingers d2 !! Z.to_nat contact_id
       = Some {| confidence := true; tip := false; x := 100; y := 200 |}.
Proof.
  intros Hud Hus Huds Hscript Hcd Hcu Hc [f Hf] Hed Hx Hy Heu.
  pose proof (lookup_lt_Some _ _ _ Hf) as Hlt.
  cbn [read_messages_loop]. unfold I2C_Read, next_reply. rewrite Hscript.
  unfold handle_message at 1. rewrite Hcd.
  rewrite (finger_update_Some _ _ _ _ Hc Hf).
  cbn [script]. unfold handle_message. rewrite Hcu.
  erewrite finger_update_Some;
    [| exact Hc | cbn [fingers]; apply list_lookup_insert_eq; exact Hlt].
  eexists. split; [reflexivity|]. cbn [fingers].
  rewrite list_insert_insert_eq, list_lookup_insert_eq by exact Hlt.
  f_equal. unfold finger_after. rewrite Hed, Heu, Hx, Hy, !Z.eqb_refl.
  destruct (Z.eqb_spec (UP h) (DOWN h)); [contradiction|].
  destruct (Z.eqb_spec (UP h) (SUP h)); [contradiction|].
  destruct (Z.eqb_spec (UP h) (DOWNSUP h)); [contradiction|].
  destruct (Z.eqb_spec (DOWN h) (UP h)); [congruence|].
  cbn [negb orb].
  destruct ((DOWN h =? UNSUP h) || (DOWN h =? DOWNUP h));
    destruct ((DOWN h =? SUP h) || (DOWN h =? DOWNSUP h)); reflexivity.
Qed.

(** C9.  With no per-finger id assigned ([t100_num_reports] = 0, the ids
    still at their initial zero), sorting any message whose id is not the
    first T100 id evaluates [t100_subsequent_report_ids[-1]] and is
    undefined; with at least one id assigned the sorting of every message is
    defined. *)
Theorem classification_needs_a_finger_id (s : statics) (message : mxt_message) :
  (t100_num_reports s = 0 ->
   t100_subsequent_report_ids s !! 0%nat = Some 0 ->
   u8 (report_id message) <> t100_first_report_id s ->
   classify s message
   = UB (out_of_bounds ARRAY_t100_subsequent_report_ids (-1)))
  /\ (1 <= t100_num_reports s <= NUM_FINGERS ->
      length (t100_subsequent_report_ids s) = Z.to_nat NUM_FINGERS ->
      exists c, classify s message = Ok c).
Proof.
  split.
  - intros Hn H0 Hid. unfold classify, array_get.
    destruct (Z.eqb_spec (u8 (report_id message)) (t100_first_report_id s));
      [contradiction|].
    change (0 <=? 0) with true. change (Z.to_nat 0) with 0%nat. cbv iota.
    rewrite H0. cbn [mbind result_bind].
    pose proof (u8_range (report_id message)).
    destruct (Z.geb_spec (u8 (report_id message)) 0); [|lia].
    rewrite Hn. reflexivity.
  - intros Hn Hlen. unfold classify, array_get.
    destruct (u8 (report_id message) =? t100_first_report_id s); [eauto|].
    change (0 <=? 0) with true. change (Z.to_nat 0) with 0%nat. cbv iota.
    destruct (lookup_lt_is_Some_2 (t100_subsequent_report_ids s) 0) as [i0 Hi0];
      [rewrite Hlen; unfold NUM_FINGERS; lia|].
    destruct (lookup_lt_is_Some_2 (t100_subsequent_report_ids s)
                (Z.to_nat (t100_num_reports s - 1))) as [iN HiN];
      [rewrite Hlen; unfold NUM_FINGERS in *; lia|].
    rewrite Hi0. cbn [mbind result_bind].
    destruct (u8 (report_id message) >=? i0); [|eauto].
    destruct (Z.leb_spec 0 (t100_num_reports s - 1)); [|lia].
    rewrite HiN. cbn [mbind result_bind].
    destruct (u8 (report_id message) <=? iN); eauto.
Qed.

(** *** The per-finger ids after resolution *)

Lemma report_ids_consistent_initial : report_ids_consistent initial_statics.
Proof.
  split; [reflexivity|]. split; [cbn; unfold NUM_FINGERS; lia|].
  exists 0. cbn. intros k Hk. lia.
Qed.

Lemma report_ids_consistent_same (s s' : statics) :
  t100_subsequent_report_ids s' = t100_subsequent_report_ids s ->
  t100_num_reports s' = t100_num_reports s ->
  report_ids_consistent s -> report_ids_consistent s'.
Proof.
  unfold report_ids_consistent. intros -> ->. trivial.
Qed.

Lemma t100_report_ids_loop_consistent (fuel : nat)
    (object : mxt_object_table_element) (r : Z) (s : statics) :
  length (t100_subsequent_report_ids s) = Z.to_nat NUM_FINGERS ->
  0 <= t100_num_reports s <= NUM_FINGERS ->
  (forall k, 0 <= k < t100_num_reports s ->
     t100_subsequent_report_ids s !! Z.to_nat k = Some (wrap16 (r + 2 + k))) ->
  let s' := t100_report_ids_loop fuel object r s in
  length (t100_subsequent_report_ids s') = Z.to_nat NUM_FINGERS
  /\ 0 <= t100_num_reports s' <= NUM_FINGERS
  /\ (forall k, 0 <= k < t100_num_reports s' ->
       t100_subsequent_report_ids s' !! Z.to_nat k = Some (wrap16 (r + 2 + k))).
Proof.
  revert s. induction fuel as [|fuel IH]; intros s Hlen Hn Hids; cbn zeta.
  - auto.
  - cbn [t100_report_ids_loop].
    destruct (Z.ltb_spec (t100_num_reports s) NUM_FINGERS) as [Hlt|]; [|auto].
    destruct (t100_num_reports s <? u8 (report_ids_per_instance object)); [|auto].
    cbn [andb]. apply IH; cbn.
    + rewrite length_insert. exact Hlen.
    + unfold NUM_FINGERS in *. rewrite wrap16_small; lia.
    + unfold NUM_FINGERS in *. intros k Hk.
      rewrite wrap16_small in Hk by lia.
      destruct (Z.eq_dec k (t100_num_reports s)) as [->|Hne].
      * apply list_lookup_insert_eq. rewrite Hlen. lia.
      * rewrite list_lookup_insert_ne by lia. apply Hids. lia.
Qed.

(** The fuel given in [case 100] is enough: the loop ends on its condition,
    with min([NUM_FINGERS], reports-per-instance) ids assigned. *)
Lemma t100_report_ids_loop_exit (fuel : nat) (object : mxt_object_table_element)
    (r : Z) (s : statics) :
  0 <= t100_num_reports s <= Z.min NUM_FINGERS (u8 (report_ids_per_instance object)) ->
  NUM_FINGERS - t100_num_reports s <= Z.of_nat fuel ->
  t100_num_reports (t100_report_ids_loop fuel object r s)
  = Z.min NUM_FINGERS (u8 (report_ids_per_instance object)).
Proof.
  revert s. unfold NUM_FINGERS.
  induction fuel as [|fuel IH]; intros s Hn Hfuel; cbn [t100_report_ids_loop].
  - lia.
  - unfold NUM_FINGERS.
    destruct (Z.ltb_spec (t100_num_reports s) 5);
      destruct (Z.ltb_spec (t100_num_reports s) (u8 (report_ids_per_instance object)));
      cbn [andb]; try lia.
    apply IH; cbn; rewrite wrap16_small; lia.
Qed.

Lemma object_switch_consistent (object : mxt_object_table_element)
    (address r : Z) (s : statics) :
  report_ids_consistent s -> report_ids_consistent (object_switch object address r s).
Proof.
  intros Hs. unfold object_switch.
  destruct (u8 (type object)) as [|p|p]; try exact Hs;
    repeat (match goal with
            | |- report_ids_consistent (match ?p with _ => _ end) => destruct p
            end; try exact Hs);
    try (revert Hs; apply report_ids_consistent_same; reflexivity).
  destruct Hs as (Hlen & _ & _).
  destruct (t100_report_ids_loop_consistent (Z.to_nat NUM_FINGERS) object r
              (set_t100_num_reports 0
                 (set_t100_second_report_id (wrap16 (r + 1))
                    (set_t100_first_report_id (wrap16 r)
                       (set_t100_multiple_touch_touchscreen_address address s)))))
    as (H1 & H2 & H3); cbn; try assumption; unfold NUM_FINGERS; try lia.
  split; [exact H1|]. split; [exact H2|]. exists r. exact H3.
Qed.

Lemma read_object_table_pass_consistent (w : table_walk) :
  report_ids_consistent (walk_statics w) ->
  report_ids_consistent (walk_statics (read_object_table_pass w)).
Proof.
  intros Hs. unfold read_object_table_pass, I2C_Read.
  destruct (next_reply (walk_bus w)) as [[status|buf] rest]; cbn [walk_statics].
  - exact Hs.
  - apply object_switch_consistent. exact Hs.
Qed.

Lemma read_object_table_loop_consistent (n : nat) (w : table_walk) :
  report_ids_consistent (walk_statics w) ->
  report_ids_consistent (walk_statics (read_object_table_loop n w)).
Proof.
  revert w. induction n as [|n IH]; intros w Hs; cbn [read_object_table_loop].
  - exact Hs.
  - apply IH, read_object_table_pass_consistent, Hs.
Qed.

Lemma read_object_table_consistent (s : statics) (b : bus) :
  report_ids_consistent s ->
  report_ids_consistent (fst (read_object_table s b)).
Proof.
  intros Hs. unfold read_object_table, I2C_Read.
  destruct (next_reply b) as [[status|buf] rest]; cbn [fst].
  - revert Hs. apply report_ids_consistent_same; reflexivity.
  - unfold walk_object_table. apply read_object_table_loop_consistent.
    cbn [walk_statics]. revert Hs. apply report_ids_consistent_same; reflexivity.
Qed.

(** Two ids of one run, [m] apart: either the second is [m] above the first,
    or the conversion to [uint16_t] wrapped and it is below. *)
Lemma wrap16_add (q m : Z) :
  0 <= m < 65536 ->
  wrap16 (q + m) = wrap16 q + m \/ wrap16 (q + m) < wrap16 q.
Proof.
  intros Hm. unfold wrap16.
  change (2 ^ 16) with 65536.
  pose proof (Z.mod_pos_bound q 65536 ltac:(lia)) as Hq.
  rewrite <- Z.add_mod_idemp_l by lia.
  destruct (Z_lt_dec (q mod 65536 + m) 65536) as [Hs|Hs].
  - left. apply Z.mod_small. lia.
  - right.
    replace (q mod 65536 + m) with (q mod 65536 + m - 65536 + 1 * 65536) by lia.
    rewrite Z.mod_add by lia. rewrite Z.mod_small; lia.
Qed.

(** With consistent ids, a message sorted into the finger branch has an index
    below the number of ids assigned. *)
Lemma classify_finger_range (s : statics) (message : mxt_message) (contact_id : Z) :
  report_ids_consistent s ->
  classify s message = Ok (finger_report contact_id) ->
  0 <= contact_id < t100_num_reports s.
Proof.
  intros (Hlen & Hn & r & Hids). unfold classify.
  destruct (u8 (report_id message) =? t100_first_report_id s); [discriminate|].
  intros Hc. apply bind_Ok_inv in Hc. destruct Hc as (first_id & H0 & Hc).
  destruct (Z.geb_spec (u8 (report_id message)) first_id) as [Hge|]; [|discriminate].
  apply bind_Ok_inv in Hc. destruct Hc as (last_id & HN & Hc).
  destruct (Z.leb_spec (u8 (report_id message)) last_id) as [Hle|]; [|discriminate].
  injection Hc as <-.
  unfold array_get in H0, HN.
  destruct (Z.leb_spec 0 (t100_num_reports s - 1)); [|discriminate].
  change (0 <=? 0) with true in H0. cbv iota in H0.
  rewrite (Hids 0) in H0 by lia.
  rewrite (Hids (t100_num_reports s - 1)) in HN by lia.
  injection H0 as <-. injection HN as <-.
  unfold NUM_FINGERS in *.
  replace (r + 2 + (t100_num_reports s - 1))
    with (r + 2 + 0 + (t100_num_reports s - 1)) in Hle by lia.
  destruct (wrap16_add (r + 2 + 0) (t100_num_reports s - 1)) as [He|Hw]; [lia| |lia].
  rewrite wrap8_small; lia.
Qed.







Lemma array_get_Some {A} (name : array_name) (a : list A) (i : Z) (v : A) :
  0 <= i -> a !! Z.to_nat i = Some v -> array_get name a i = Ok v.
Proof.
  intros Hi Hv. unfold array_get.
  destruct (Z.leb_spec 0 i); [|lia]. rewrite Hv. reflexivity.
Qed.

Lemma array_get_None {A} (name : array_name) (a : list A) (i : Z) :
  a !! Z.to_nat i = None -> array_get name a i = UB (out_of_bounds name i).
Proof.
  intros Hv. unfold array_get. destruct (0 <=? i); [rewrite Hv|]; reflexivity.
Qed.



(** *** The addresses of the walk *)

Lemma read_addresses_app (l1 l2 : list op) :
  read_addresses (l1 ++ l2) = read_addresses l1 ++ read_addresses l2.
Proof.
  unfold read_addresses. apply flat_map_app.
Qed.

Lemma acks_nonneg (replies : list reply) : 0 <= acks replies.
Proof.
  unfold acks. lia.
Qed.

(** A pass whose read fails reports it and changes nothing else. *)
Lemma read_object_table_pass_Nack (w : table_walk) (status : Z) :
  fst (next_reply (walk_bus w)) = Nack status ->
  read_object_table_pass w
  = {| walk_report_id := walk_report_id w;
       object_table_element_address := object_table_element_address w;
       walk_statics := walk_statics w;
       walk_bus :=
         {| script := snd (next_reply (walk_bus w));
            log := log (walk_bus w)
                   ++ [Rd (object_table_element_address w)
                          sizeof_mxt_object_table_element;
                       Printf (Failed_to_read_object_table_element status)] |} |}.
Proof.
  intros Hr. unfold read_object_table_pass, I2C_Read.
  destruct (next_reply (walk_bus w)) as [r rest]. cbn [fst snd] in *. subst r.
  unfold printf. cbn [script log]. rewrite <- app_assoc. reflexivity.
Qed.

Lemma read_object_table_loop_addresses (n : nat) (w : table_walk) :
  0 <= object_table_element_address w ->
  object_table_element_address w + 6 * Z.of_nat n < 65536 ->
  read_addresses (log (walk_bus (read_object_table_loop n w)))
  = read_addresses (log (walk_bus w))
    ++ map (fun k => object_table_element_address w
                     + 6 * acks (take k (script (walk_bus w))))
         (seq 0 n).
Proof.
  revert w. induction n as [|n IH]; intros w Hlo Hhi.
  - cbn. rewrite app_nil_r. reflexivity.
  - cbn [read_object_table_loop seq map]. rewrite <- List.seq_shift, List.map_map.
    cbn [take]. change (acks []) with 0. rewrite Z.mul_0_r, Z.add_0_r.
    unfold read_object_table_pass, I2C_Read, next_reply.
    destruct (script (walk_bus w)) as [|[status|buf] rest] eqn:Hs.
    + rewrite IH; cbn [object_table_element_address walk_bus script log printf];
        [|lia|lia].
      rewrite !read_addresses_app. cbn [read_addresses flat_map app].
      rewrite <- !app_assoc. cbn [app]. do 2 f_equal.
      apply map_ext. intros k. destruct k; reflexivity.
    + rewrite IH; cbn [object_table_element_address walk_bus script log printf];
        [|lia|lia].
      rewrite !read_addresses_app. cbn [read_addresses flat_map app].
      rewrite <- !app_assoc. cbn [app]. do 2 f_equal.
    + unfold sizeof_mxt_object_table_element.
      rewrite IH; cbn [object_table_element_address walk_bus script log];
        rewrite wrap16_small by lia; [|lia|lia].
      rewrite !read_addresses_app. cbn [read_addresses flat_map app].
      rewrite <- !app_assoc. cbn [app]. do 2 f_equal.
      apply map_ext. intros k. unfold acks. cbn [take List.filter length]. lia.
Qed.

(** C3 (as the code has it).  A pass of the walk whose read fails reports the
    failure and changes neither the statics nor the counter nor the table
    address, so the next pass reads the same address again.  Pass [k] reads at
    7 + 6 x (the number of successful reads among the passes before it):
    the addresses never decrease, and they increase only across a successful
    read. *)
Theorem failed_entry_read_keeps_address (information : mxt_information_block)
    (s : statics) (b : bus) :
  let n := Z.to_nat (u8 (num_objects information)) in
  read_addresses (log (walk_bus (walk_object_table information s b)))
  = read_addresses (log b)
    ++ map (fun k => sizeof_mxt_information_block
                     + sizeof_mxt_object_table_element * acks (take k (script b)))
         (seq 0 n)
  /\ forall (w : table_walk) (status : Z),
       fst (next_reply (walk_bus w)) = Nack status ->
       let w1 := read_object_table_pass w in
       walk_statics w1 = walk_statics w
       /\ walk_report_id w1 = walk_report_id w
       /\ object_table_element_address w1 = object_table_element_address w
       /\ log (walk_bus w1)
          = log (walk_bus w)
            ++ [Rd (object_table_element_address w) sizeof_mxt_object_table_element;
                Printf (Failed_to_read_object_table_element status)].
Proof.
  intros n. split.
  - unfold walk_object_table. fold n.
    pose proof (u8_range (num_objects information)) as Hn.
    rewrite read_object_table_loop_addresses;
      cbn [object_table_element_address walk_bus];
      unfold sizeof_mxt_information_block; rewrite wrap16_small by lia.
    + reflexivity.
    + lia.
    + subst n. rewrite Z2Nat.id by lia. lia.
  - intros w status Hr w1. subst w1.
    rewrite (read_object_table_pass_Nack w status Hr).
    cbn [walk_statics walk_report_id object_table_element_address walk_bus log].
    repeat split.
Qed.

(** * Further properties of the code *)

(** *** One entry of the object table *)

Lemma land_shiftl_8 (a b : Z) :
  0 <= b < 256 -> Z.land (Z.shiftl a 8) b = 0.
Proof.
  intros Hb. apply Z.bits_inj'. intros n Hn.
  rewrite Z.land_spec, Z.bits_0, Z.shiftl_spec by lia.
  destruct (Z_lt_dec n 8).
  - rewrite (Z.testbit_neg_r a) by lia. reflexivity.
  - destruct (Z.eq_dec b 0) as [->|].
    + rewrite Z.bits_0. apply andb_false_r.
    + assert (Z.log2 b < 8) by (apply Z.log2_lt_pow2; lia).
      rewrite (Z.bits_above_log2 b n) by lia. apply andb_false_r.
Qed.

Lemma lor_shiftl_8 (a b : Z) :
  0 <= b < 256 -> Z.lor (Z.shiftl a 8) b = 256 * a + b.
Proof.
  intros Hb.
  rewrite <- Z.lxor_lor, <- Z.add_nocarry_lxor by (apply land_shiftl_8; lia).
  rewrite Z.shiftl_mul_pow2 by lia. change (2 ^ 8) with 256. lia.
Qed.

Lemma entry_address_decoded (object : mxt_object_table_element) :
  wrap16 (Z.lor (Z.shiftl (u8 (position_ms_byte object)) 8)
                (u8 (position_ls_byte object)))
  = entry_address object
  /\ 0 <= entry_address object < 65536.
Proof.
  pose proof (u8_range (position_ms_byte object)).
  pose proof (u8_range (position_ls_byte object)).
  unfold entry_address. rewrite lor_shiftl_8 by lia.
  split; [apply wrap16_small|]; lia.
Qed.

Lemma t100_report_ids_loop_frame (fuel : nat) (object : mxt_object_table_element)
    (r : Z) (s : statics) :
  let s' := t100_report_ids_loop fuel object r s in
  t100_first_report_id s' = t100_first_report_id s
  /\ t100_second_report_id s' = t100_second_report_id s
  /\ t100_multiple_touch_touchscreen_address s'
     = t100_multiple_touch_touchscreen_address s.
Proof.
  revert s. induction fuel as [|fuel IH]; intros s; cbn zeta.
  - auto.
  - cbn [t100_report_ids_loop].
    destruct ((t100_num_reports s <? NUM_FINGERS)
              && (t100_num_reports s <? u8 (report_ids_per_instance object)));
      [|auto].
    specialize (IH (set_t100_num_reports
                      (wrap16 (t100_num_reports
                                 (set_t100_subsequent_report_ids
                                    (<[Z.to_nat (t100_num_reports s) :=
                                         wrap16 (r + 2 + t100_num_reports s)]>
                                       (t100_subsequent_report_ids s)) s) + 1))
                      (set_t100_subsequent_report_ids
                         (<[Z.to_nat (t100_num_reports s) :=
                              wrap16 (r + 2 + t100_num_reports s)]>
                            (t100_subsequent_report_ids s)) s))).
    cbn zeta in IH. exact IH.
Qed.

(** X1.  An entry of type 100 read with the counter at [r] records its address,
    gives the first two ids of the object to the aggregate and the group
    report, and assigns min([NUM_FINGERS], reports-per-instance) per-finger
    ids, the [k]-th being [r + 2 + k] (as a [uint16_t]). *)
Theorem t100_entry_assigns_finger_ids (object : mxt_object_table_element)
    (address r : Z) (s : statics) :
  u8 (type object) = 100 ->
  length (t100_subsequent_report_ids s) = Z.to_nat NUM_FINGERS ->
  let s' := object_switch object address r s in
  t100_multiple_touch_touchscreen_address s' = address
  /\ t100_first_report_id s' = wrap16 r
  /\ t100_second_report_id s' = wrap16 (r + 1)
  /\ t100_num_reports s' = Z.min NUM_FINGERS (u8 (report_ids_per_instance object))
  /\ forall k, 0 <= k < t100_num_reports s' ->
       t100_subsequent_report_ids s' !! Z.to_nat k = Some (wrap16 (r + 2 + k)).
Proof.
  intros Htype Hlen s'. subst s'. unfold object_switch. rewrite Htype.
  set (s0 := set_t100_num_reports 0 _).
  pose proof (u8_range (report_ids_per_instance object)) as Hrpi.
  destruct (t100_report_ids_loop_frame (Z.to_nat NUM_FINGERS) object r s0)
    as (H1 & H2 & H3).
  destruct (t100_report_ids_loop_consistent (Z.to_nat NUM_FINGERS) object r s0)
    as (_ & _ & Hids);
    [exact Hlen | cbn; unfold NUM_FINGERS; lia | cbn; intros; lia |].
  rewrite H1, H2, H3.
  repeat split; try reflexivity; [|exact Hids].
  apply t100_report_ids_loop_exit; cbn; unfold NUM_FINGERS; lia.
Qed.

(** X2.  An entry of type 5 records, besides its address, the greatest message
    size as [size_minus_one - 1] converted to [uint16_t]: a [size_minus_one]
    of zero gives 65535. *)
Theorem t5_entry_max_message_size (object : mxt_object_table_element)
    (address r : Z) (s : statics) :
  u8 (type object) = 5 ->
  let s' := object_switch object address r s in
  t5_message_processor_address s' = address
  /\ t5_max_message_size s'
     = (if u8 (size_minus_one object) =? 0 then 65535
        else u8 (size_minus_one object) - 1).
Proof.
  intros Htype s'. subst s'. unfold object_switch. rewrite Htype. cbn.
  split; [reflexivity|].
  pose proof (u8_range (size_minus_one object)).
  destruct (Z.eqb_spec (u8 (size_minus_one object)) 0) as [->|].
  - reflexivity.
  - apply wrap16_small. lia.
Qed.

Ltac destruct_positive_match :=
  repeat match goal with
         | p : positive |- _ => destruct p; try reflexivity; try lia
         end.

Lemma object_switch_other (object : mxt_object_table_element)
    (address r : Z) (s : statics) :
  ~ In (u8 (type object)) [2; 5; 6; 7; 8; 44; 46; 100] ->
  object_switch object address r s = s.
Proof.
  intros Hty. unfold object_switch.
  assert (u8 (type object) <> 2 /\ u8 (type object) <> 5 /\ u8 (type object) <> 6
          /\ u8 (type object) <> 7 /\ u8 (type object) <> 8
          /\ u8 (type object) <> 44 /\ u8 (type object) <> 46
          /\ u8 (type object) <> 100) as (?&?&?&?&?&?&?&?)
    by (cbn [In] in Hty; repeat split; intros E; apply Hty; rewrite E; tauto).
  destruct (u8 (type object)) as [|p|p]; try reflexivity; destruct_positive_match.
Qed.

Lemma address_of_type_other (t : Z) (s : statics) :
  ~ In t [2; 5; 6; 7; 8; 44; 46; 100] -> address_of_type t s = None.
Proof.
  intros Hty. unfold address_of_type.
  assert (t <> 2 /\ t <> 5 /\ t <> 6 /\ t <> 7 /\ t <> 8 /\ t <> 44 /\ t <> 46
          /\ t <> 100) as (?&?&?&?&?&?&?&?)
    by (cbn [In] in Hty; repeat split; intros E; apply Hty; rewrite E; tauto).
  destruct t as [|p|p]; try reflexivity; destruct_positive_match.
Qed.

Lemma address_of_type_same (t : Z) (s s' : statics) :
  resolved_addresses s' = resolved_addresses s ->
  address_of_type t s' = address_of_type t s.
Proof.
  unfold resolved_addresses. intros [= E2 E5 E6 E7 E8 E44 E46 E100].
  unfold address_of_type. rewrite E2, E5, E6, E7, E8, E44, E46, E100. reflexivity.
Qed.

Lemma t100_report_ids_loop_addresses (fuel : nat)
    (object : mxt_object_table_element) (r : Z) (s : statics) :
  resolved_addresses (t100_report_ids_loop fuel object r s) = resolved_addresses s.
Proof.
  revert s. induction fuel as [|fuel IH]; intros s; cbn [t100_report_ids_loop].
  - reflexivity.
  - destruct ((t100_num_reports s <? NUM_FINGERS)
              && (t100_num_reports s <? u8 (report_ids_per_instance object)));
      [|reflexivity].
    rewrite IH. reflexivity.
Qed.

(** What an entry does to the address kept for a type [t]. *)
Lemma object_switch_address_of_type (object : mxt_object_table_element)
    (address r : Z) (s : statics) (t : Z) :
  address_of_type t (object_switch object address r s)
  = if t =? u8 (type object)
    then match address_of_type t s with Some _ => Some address | None => None end
    else address_of_type t s.
Proof.
  destruct (in_dec Z.eq_dec (u8 (type object)) [2; 5; 6; 7; 8; 44; 46; 100])
    as [Hin|Hout].
  - unfold object_switch. cbn [In] in Hin.
    destruct Hin as [E|[E|[E|[E|[E|[E|[E|[E|[]]]]]]]]]; rewrite <- E;
      try rewrite (address_of_type_same t _ _ (t100_report_ids_loop_addresses _ _ _ _));
      match goal with
      | |- context [t =? ?k] =>
        destruct (Z.eqb_spec t k) as [->|Hne];
        [ reflexivity
        | unfold address_of_type; destruct t as [|p|p]; try reflexivity;
          destruct_positive_match ]
      end.
  - rewrite (object_switch_other _ _ _ _ Hout).
    destruct (Z.eqb_spec t (u8 (type object))) as [->|]; [|reflexivity].
    rewrite (address_of_type_other _ _ Hout). reflexivity.
Qed.

(** X3.  An entry records its address under its own type when the driver
    recognises the type, and leaves the address of every other type as it
    was; an entry of any other type changes no address. *)
Theorem entry_records_address_of_its_type (object : mxt_object_table_element)
    (address r : Z) (s : statics) (t : Z) :
  address_of_type t (object_switch object address r s)
  = if t =? u8 (type object)
    then match address_of_type t s with Some _ => Some address | None => None end
    else address_of_type t s.
Proof.
  apply object_switch_address_of_type.
Qed.

(** *** The walk over the object table *)

Lemma read_object_table_pass_Ack (w : table_walk) (buf : list byte) :
  fst (next_reply (walk_bus w)) = Ack buf ->
  read_object_table_pass w
  = {| walk_report_id :=
         wrap_int (walk_report_id w
                   + report_ids_consumed (as_object_table_element buf));
       object_table_element_address :=
         wrap16 (object_table_element_address w + sizeof_mxt_object_table_element);
       walk_statics :=
         object_switch (as_object_table_element buf)
           (entry_address (as_object_table_element buf))
           (walk_report_id w) (walk_statics w);
       walk_bus :=
         {| script := snd (next_reply (walk_bus w));
            log := log (walk_bus w)
                   ++ [Rd (object_table_element_address w)
                          sizeof_mxt_object_table_element] |} |}.
Proof.
  intros Hr. unfold read_object_table_pass, I2C_Read.
  destruct (next_reply (walk_bus w)) as [r rest]. cbn [fst snd] in *. subst r.
  rewrite (proj1 (entry_address_decoded _)). reflexivity.
Qed.

Lemma next_reply_cases (b : bus) :
  (script b = [] /\ next_reply b = (Nack 1, []))
  \/ exists r rest, script b = r :: rest /\ next_reply b = (r, rest).
Proof.
  unfold next_reply. destruct (script b); eauto.
Qed.

Lemma read_object_table_loop_fold (n : nat) (w : table_walk) :
  0 <= walk_report_id w ->
  walk_report_id w + 65280 * Z.of_nat n <= INT_MAX ->
  walk_statics (read_object_table_loop n w)
  = resolve_entries (entries_read n (script (walk_bus w)))
      (walk_report_id w) (walk_statics w).
Proof.
  revert w. induction n as [|n IH]; intros w Hlo Hhi.
  - reflexivity.
  - cbn [read_object_table_loop].
    destruct (next_reply_cases (walk_bus w)) as [[Hs Hr]|(r & rest & Hs & Hr)].
    + rewrite (read_object_table_pass_Nack w 1) by (rewrite Hr; reflexivity).
      rewrite IH; cbn [walk_report_id walk_statics walk_bus script]; try lia.
      rewrite Hr, Hs. cbn [snd]. destruct n; reflexivity.
    + destruct r as [status|buf].
      * rewrite (read_object_table_pass_Nack w status) by (rewrite Hr; reflexivity).
        rewrite IH; cbn [walk_report_id walk_statics walk_bus script]; try lia.
        rewrite Hr, Hs. reflexivity.
      * pose proof (report_ids_consumed_range (as_object_table_element buf)) as Hc.
        rewrite (read_object_table_pass_Ack w buf) by (rewrite Hr; reflexivity).
        rewrite IH; cbn [walk_report_id walk_statics walk_bus script];
          rewrite wrap_int_small by (unfold INT_MAX in *; lia); try lia.
        rewrite Hr, Hs. reflexivity.
Qed.

Lemma walk_object_table_fold (information : mxt_information_block)
    (s : statics) (b : bus) :
  walk_statics (walk_object_table information s b)
  = resolve_entries
      (entries_read (Z.to_nat (u8 (num_objects information))) (script b))
      1 s.
Proof.
  unfold walk_object_table.
  pose proof (u8_range (num_objects information)) as Hn.
  rewrite read_object_table_loop_fold; cbn [walk_report_id walk_bus walk_statics].
  - reflexivity.
  - lia.
  - unfold INT_MAX. rewrite Z2Nat.id by lia. lia.
Qed.

(** X4.  The statics after the walk are those that the entries read
    successfully give, taken in order with the counter advancing from 1: a
    pass whose read fails leaves no trace in them. *)
Theorem walk_resolves_the_entries_read (information : mxt_information_block)
    (s : statics) (b : bus) :
  walk_statics (walk_object_table information s b)
  = resolve_entries
      (entries_read (Z.to_nat (u8 (num_objects information))) (script b))
      1 s.
Proof.
  apply walk_object_table_fold.
Qed.

Lemma reads_app (l1 l2 : list op) : reads (l1 ++ l2) = reads l1 ++ reads l2.
Proof. apply List.filter_app. Qed.

Lemma writes_app (l1 l2 : list op) : writes (l1 ++ l2) = writes l1 ++ writes l2.
Proof. apply List.filter_app. Qed.

Lemma write_addresses_app (l1 l2 : list op) :
  write_addresses (l1 ++ l2) = write_addresses l1 ++ write_addresses l2.
Proof. apply flat_map_app. Qed.

Lemma diagnostics_app (l1 l2 : list op) :
  diagnostics (l1 ++ l2) = diagnostics l1 ++ diagnostics l2.
Proof. apply flat_map_app. Qed.

Lemma read_object_table_pass_ops (w : table_walk) :
  exists ops,
    log (walk_bus (read_object_table_pass w)) = log (walk_bus w) ++ ops
    /\ writes ops = [] /\ length (reads ops) = 1%nat.
Proof.
  destruct (next_reply (walk_bus w)) as [[status|buf] rest] eqn:Hr.
  - rewrite (read_object_table_pass_Nack w status) by (rewrite Hr; reflexivity).
    cbn [walk_bus log]. eexists. split; [reflexivity|]. split; reflexivity.
  - rewrite (read_object_table_pass_Ack w buf) by (rewrite Hr; reflexivity).
    cbn [walk_bus log]. eexists. split; [reflexivity|]. split; reflexivity.
Qed.

Lemma read_object_table_loop_ops (n : nat) (w : table_walk) :
  exists ops,
    log (walk_bus (read_object_table_loop n w)) = log (walk_bus w) ++ ops
    /\ writes ops = [] /\ length (reads ops) = n.
Proof.
  revert w. induction n as [|n IH]; intros w; cbn [read_object_table_loop].
  - exists []. rewrite app_nil_r. repeat split.
  - destruct (read_object_table_pass_ops w) as (ops1 & Hl1 & Hw1 & Hr1).
    destruct (IH (read_object_table_pass w)) as (ops2 & Hl2 & Hw2 & Hr2).
    exists (ops1 ++ ops2). rewrite Hl2, Hl1, <- app_assoc.
    rewrite writes_app, reads_app, length_app, Hw1, Hw2, Hr1, Hr2.
    repeat split.
Qed.

Lemma read_object_table_ops (s : statics) (b : bus) :
  exists ops,
    log (snd (read_object_table s b)) = log b ++ ops
    /\ writes ops = []
    /\ Z.of_nat (length (reads ops))
       = 1 + match fst (next_reply b) with
             | Ack buf => u8 (num_objects (as_information_block buf))
             | Nack _ => 0
             end.
Proof.
  unfold read_object_table, I2C_Read.
  destruct (next_reply b) as [[status|buf] rest]; cbn [fst snd].
  - eexists. unfold printf. cbn [log]. rewrite <- app_assoc.
    split; [reflexivity|]. split; reflexivity.
  - unfold walk_object_table.
    match goal with
    | |- context [read_object_table_loop ?n ?w] =>
      destruct (read_object_table_loop_ops n w) as (ops & Hl & Hw & Hr)
    end.
    cbn [walk_bus printf log] in Hl, Hr |- *.
    exists ([Rd (MXT_REG_INFORMATION_BLOCK h) sizeof_mxt_information_block;
             Printf (Found_MXT (as_information_block buf))] ++ ops).
    rewrite Hl, <- !app_assoc. split; [reflexivity|].
    rewrite writes_app, reads_app, length_app, Hw, Hr.
    cbn [app writes reads List.filter is_write is_read length].
    pose proof (u8_range (num_objects (as_information_block buf))).
    split; [reflexivity | lia].
Qed.

(** X5.  [read_object_table] reads the information block once and then, when
    that read succeeded, once for each object the block declares, whether the
    reads succeed or not; it never writes. *)
Theorem read_object_table_reads_only (s : statics) (b : bus) :
  exists ops,
    log (snd (read_object_table s b)) = log b ++ ops
    /\ writes ops = []
    /\ Z.of_nat (length (reads ops))
       = 1 + match fst (next_reply b) with
             | Ack buf => u8 (num_objects (as_information_block buf))
             | Nack _ => 0
             end.
Proof.
  apply read_object_table_ops.
Qed.

(** *** write_configuration *)

Lemma write_t7_ops (s : statics) (b : bus) :
  exists ops,
    log (write_t7 s b) = log b ++ ops
    /\ write_addresses ops = List.filter nonzero [t7_powerconfig_address s]
    /\ diagnostics ops = [] /\ reads ops = [].
Proof.
  unfold write_t7, nonzero. cbn [List.filter].
  destruct (t7_powerconfig_address s =? 0); cbn [negb].
  - exists []. rewrite app_nil_r. repeat split.
  - unfold I2C_Write. destruct (next_reply b). cbn [snd log].
    eexists. split; [reflexivity|]. repeat split.
Qed.

Lemma write_t8_ops (s : statics) (b : bus) :
  exists ops,
    log (write_t8 s b) = log b ++ ops
    /\ write_addresses ops = List.filter nonzero [t8_acquisitionconfig_address s]
    /\ diagnostics ops = [] /\ reads ops = [].
Proof.
  unfold write_t8, nonzero. cbn [List.filter].
  destruct (t8_acquisitionconfig_address s =? 0); cbn [negb].
  - exists []. rewrite app_nil_r. repeat split.
  - unfold I2C_Write. destruct (next_reply b). cbn [snd log].
    eexists. split; [reflexivity|]. repeat split.
Qed.

Lemma write_t46_ops (s : statics) (b : bus) :
  exists ops,
    log (write_t46 s b) = log b ++ ops
    /\ write_addresses ops = List.filter nonzero [t46_cte_config_address s]
    /\ diagnostics ops = [] /\ reads ops = [].
Proof.
  unfold write_t46, nonzero. cbn [List.filter].
  destruct (t46_cte_config_address s =? 0); cbn [negb].
  - exists []. rewrite app_nil_r. repeat split.
  - unfold I2C_Write. destruct (next_reply b). cbn [snd log].
    eexists. split; [reflexivity|]. repeat split.
Qed.

Lemma write_t100_ops (s : statics) (b : bus) :
  exists ops,
    log (snd (write_t100 s b)) = log b ++ ops
    /\ write_addresses ops
       = List.filter nonzero
           (match fst (write_t100 s b) with
            | Ok _ => [t100_multiple_touch_touchscreen_address s]
            | UB _ => []
            end)
    /\ (diagnostics ops = []
        \/ exists status, diagnostics ops = [T100_Configuration_failed status])
    /\ (t100_multiple_touch_touchscreen_address s = 0 -> ops = []).
Proof.
  unfold write_t100, nonzero.
  destruct (Z.eqb_spec (t100_multiple_touch_touchscreen_address s) 0) as [E|E].
  - exists []. cbn [fst snd List.filter]. rewrite E, app_nil_r. cbn. auto.
  - assert (Hnz : (t100_multiple_touch_touchscreen_address s =? 0) = false)
      by (apply Z.eqb_neq; exact E).
    unfold I2C_Read. destruct (next_reply b) as [r rest].
    destruct (t100_configuration s _) as [cfg|e]; cbn [fst snd log].
    + unfold I2C_Write, next_reply. cbn [script log].
      destruct rest as [|[status|buf] rest]; cbn [fst snd log printf List.filter];
        rewrite Hnz, <- ?app_assoc; cbn [app negb];
        (eexists; split; [reflexivity|]);
        (split; [reflexivity|]); (split; [|intros; contradiction]);
        cbn; eauto.
    + eexists. split; [reflexivity|]. split; [reflexivity|].
      split; [left; reflexivity | intros; contradiction].
Qed.

Lemma write_configuration_ops (s : statics) (b : bus) :
  exists ops,
    log (snd (write_configuration s b)) = log b ++ ops
    /\ write_addresses ops
       = List.filter nonzero
           ([t7_powerconfig_address s; t8_acquisitionconfig_address s;
             t46_cte_config_address s]
            ++ match fst (write_configuration s b) with
               | Ok _ => [t100_multiple_touch_touchscreen_address s]
               | UB _ => []
               end)
    /\ (diagnostics ops = []
        \/ exists status, diagnostics ops = [T100_Configuration_failed status])
    /\ (t100_multiple_touch_touchscreen_address s = 0 -> diagnostics ops = []).
Proof.
  unfold write_configuration.
  destruct (write_t7_ops s b) as (o7 & L7 & W7 & D7 & _).
  destruct (write_t8_ops s (write_t7 s b)) as (o8 & L8 & W8 & D8 & _).
  destruct (write_t46_ops s (write_t8 s (write_t7 s b))) as (o46 & L46 & W46 & D46 & _).
  destruct (write_t100_ops s (write_t46 s (write_t8 s (write_t7 s b))))
    as (o100 & L100 & W100 & D100 & Z100).
  exists (o7 ++ o8 ++ o46 ++ o100).
  rewrite L100, L46, L8, L7, <- !app_assoc.
  rewrite !write_addresses_app, !diagnostics_app, W7, W8, W46, W100, D7, D8, D46.
  cbn [app]. split; [reflexivity|]. split; [|split].
  - cbn [List.filter].
    destruct (nonzero (t7_powerconfig_address s)),
      (nonzero (t8_acquisitionconfig_address s)),
      (nonzero (t46_cte_config_address s)); reflexivity.
  - exact D100.
  - intros E. rewrite (Z100 E). reflexivity.
Qed.

(** X6.  [write_configuration] writes to the addresses held for T7, T8, T46
    and T100, in this order, leaving out those that are zero (and T100 when
    its assignments are undefined): it never writes to address 0 nor to any
    other object. *)
Theorem write_configuration_writes_resolved_only (s : statics) (b : bus) :
  exists ops,
    log (snd (write_configuration s b)) = log b ++ ops
    /\ write_addresses ops
       = List.filter nonzero
           ([t7_powerconfig_address s; t8_acquisitionconfig_address s;
             t46_cte_config_address s]
            ++ match fst (write_configuration s b) with
               | Ok _ => [t100_multiple_touch_touchscreen_address s]
               | UB _ => []
               end).
Proof.
  destruct (write_configuration_ops s b) as (ops & Hl & Hw & _).
  exists ops. split; assumption.
Qed.

(** X7.  The only failure [write_configuration] reports is that of the T100
    write: whatever the device answers, it prints at most one diagnostic,
    which is the T100 one, and none when T100 is unresolved.  Failed writes
    to T7, T8 and T46 pass in silence. *)
Theorem write_configuration_reports_t100_only (s : statics) (b : bus) :
  exists ops,
    log (snd (write_configuration s b)) = log b ++ ops
    /\ (diagnostics ops = []
        \/ exists status, diagnostics ops = [T100_Configuration_failed status])
    /\ (t100_multiple_touch_touchscreen_address s = 0 -> diagnostics ops = []).
Proof.
  destruct (write_configuration_ops s b) as (ops & Hl & _ & Hd & Hz).
  exists ops. repeat split; assumption.
Qed.

Lemma CPI_TO_SAMPLES_in_range (cpi_v dist_in_mm : Z) :
  0 <= cpi_v < 65536 -> 0 <= dist_in_mm <= 3276 ->
  CPI_TO_SAMPLES cpi_v dist_in_mm
  = Ok (Z.quot (cpi_v * dist_in_mm * 10 + 127) 254).
Proof.
  intros Hc Hd. apply CPI_TO_SAMPLES_Ok; try lia.
  unfold INT_MAX. assert (cpi_v * dist_in_mm * 10 <= 2146926600) by nia. lia.
Qed.

(** X8.  With the resolution in the range of its [uint16_t] and a sensor of at
    most 3276 mm a side, [write_configuration] is defined exactly when T100
    is unresolved or both matrix sizes of the information block are not
    zero; otherwise the pitch is a division by zero. *)
Theorem write_configuration_defined (s : statics) (b : bus) :
  0 <= cpi s < 65536 ->
  0 <= MXT_SENSOR_WIDTH_MM h <= 3276 ->
  0 <= MXT_SENSOR_HEIGHT_MM h <= 3276 ->
  fst (write_configuration s b)
  = if (t100_multiple_touch_touchscreen_address s =? 0)
       || (nonzero (u8 (matrix_x_size (information s)))
           && nonzero (u8 (matrix_y_size (information s))))
    then Ok tt
    else UB division_by_zero.
Proof.
  intros Hc Hw Hh. unfold write_configuration, write_t100, nonzero.
  destruct (t100_multiple_touch_touchscreen_address s =? 0); [reflexivity|].
  cbn [orb]. destruct (I2C_Read _ _ _) as [r b1].
  unfold t100_configuration, int_div.
  rewrite !CPI_TO_SAMPLES_in_range by assumption.
  destruct (u8 (matrix_x_size (information s)) =? 0); [reflexivity|].
  destruct (u8 (matrix_y_size (information s)) =? 0); [reflexivity|].
  cbn [mbind result_bind negb andb].
  destruct (I2C_Write _ _ _ b1) as [[status|buf] b2]; reflexivity.
Qed.

(** *** read_messages *)

(** X9.  A message of the finger branch rewrites the finger it addresses and
    no other: the tip is cleared by UP, UNSUP and DOWNUP, else set by DOWN,
    else kept; the position is kept by UP and taken from the message by every
    other tag.  Nothing is printed. *)
Theorem finger_record_rewrites_its_finger (s : statics) (message : mxt_message)
    (d : digitizer_t) (b : bus) (contact_id : Z) (f : finger_t) :
  classify s message = Ok (finger_report contact_id) ->
  0 <= contact_id ->
  fingers d !! Z.to_nat contact_id = Some f ->
  exists f',
    handle_message s message d b
    = (Ok {| fingers := <[Z.to_nat contact_id := f']> (fingers d) |}, b)
    /\ tip f'
       = (if (message_event message =? UP h) || (message_event message =? UNSUP h)
             || (message_event message =? DOWNUP h)
          then false
          else if message_event message =? DOWN h then true else tip f)
    /\ x f' = (if message_event message =? UP h then x f else message_x message)
    /\ y f' = (if message_event message =? UP h then y f else message_y message).
Proof.
  intros Hclass Hc Hf. unfold handle_message. rewrite Hclass.
  rewrite (finger_update_Some _ _ _ _ Hc Hf).
  exists (finger_after message f). split; [reflexivity|].
  unfold finger_after.
  destruct (message_event message =? DOWN h);
    destruct ((message_event message =? UP h) || (message_event message =? UNSUP h)
              || (message_event message =? DOWNUP h));
    destruct (message_event message =? UP h); repeat split.
Qed.

Lemma lor_shiftl_8_low (a c : Z) :
  0 <= c < 256 -> Z.lor c (Z.shiftl a 8) = c + 256 * a.
Proof.
  intros Hc. rewrite Z.lor_comm, lor_shiftl_8 by lia. lia.
Qed.

(** X10.  The payload of a message is read as: the event tag in the low four
    bits of byte 0, x in bytes 1 and 2 and y in bytes 3 and 4, the low byte
    first; both coordinates lie in 0..65535 and the tag in 0..15. *)
Theorem message_payload_decoded (message : mxt_message) :
  message_event message = u8 (byte_at 0 (data message)) mod 16
  /\ message_x message
     = u8 (byte_at 1 (data message)) + 256 * u8 (byte_at 2 (data message))
  /\ message_y message
     = u8 (byte_at 3 (data message)) + 256 * u8 (byte_at 4 (data message))
  /\ 0 <= message_event message < 16
  /\ 0 <= message_x message < 65536
  /\ 0 <= message_y message < 65536.
Proof.
  unfold message_event, message_x, message_y.
  pose proof (u8_range (byte_at 0 (data message))).
  pose proof (u8_range (byte_at 1 (data message))).
  pose proof (u8_range (byte_at 2 (data message))).
  pose proof (u8_range (byte_at 3 (data message))).
  pose proof (u8_range (byte_at 4 (data message))).
  change 15 with (Z.ones 4). rewrite Z.land_ones by lia. change (2 ^ 4) with 16.
  rewrite !lor_shiftl_8_low by lia. rewrite !wrap16_small by lia.
  pose proof (Z.mod_pos_bound (u8 (byte_at 0 (data message))) 16 ltac:(lia)).
  repeat split; lia.
Qed.

(** X11.  With some but not all of the [NUM_FINGERS] ids assigned, a message
    that is neither the aggregate report nor a finger report leaves the
    report as it is and prints exactly one diagnostic. *)
Theorem unhandled_record_is_reported (s : statics) (message : mxt_message)
    (d : digitizer_t) (b : bus) :
  length (t100_subsequent_report_ids s) = Z.to_nat NUM_FINGERS ->
  1 <= t100_num_reports s < NUM_FINGERS ->
  classify s message = Ok unhandled_report ->
  exists first_id past_id last_id,
    handle_message s message d b
    = (Ok d, {| script := script b;
                log := log b ++ [Printf (Unhandled_ID (u8 (report_id message))
                                           first_id past_id last_id)] |}).
Proof.
  intros Hlen Hn Hclass. unfold handle_message, unhandled_diagnostic.
  rewrite Hclass. unfold NUM_FINGERS in *.
  destruct (lookup_lt_is_Some_2 (t100_subsequent_report_ids s) (Z.to_nat 0))
    as [a Ha]; [rewrite Hlen; lia|].
  destruct (lookup_lt_is_Some_2 (t100_subsequent_report_ids s)
              (Z.to_nat (t100_num_reports s))) as [c Hc]; [rewrite Hlen; lia|].
  destruct (lookup_lt_is_Some_2 (t100_subsequent_report_ids s)
              (Z.to_nat (t100_num_reports s - 1))) as [e He]; [rewrite Hlen; lia|].
  rewrite (array_get_Some _ _ 0 a),
    (array_get_Some _ _ (t100_num_reports s) c),
    (array_get_Some _ _ (t100_num_reports s - 1) e) by (assumption || lia).
  exists a, c, e. reflexivity.
Qed.

(** X12.  With all [NUM_FINGERS] ids assigned, the diagnostic of a message
    that is neither the aggregate report nor a finger report indexes
    [t100_subsequent_report_ids[NUM_FINGERS]], one past the end of the array:
    handling the message is undefined. *)
Theorem unhandled_record_indexes_past_ids (s : statics) (message : mxt_message)
    (d : digitizer_t) (b : bus) :
  length (t100_subsequent_report_ids s) = Z.to_nat NUM_FINGERS ->
  t100_num_reports s = NUM_FINGERS ->
  classify s message = Ok unhandled_report ->
  handle_message s message d b
  = (UB (out_of_bounds ARRAY_t100_subsequent_report_ids NUM_FINGERS), b).
Proof.
  intros Hlen Hn Hclass. unfold handle_message, unhandled_diagnostic.
  rewrite Hclass, Hn.
  destruct (lookup_lt_is_Some_2 (t100_subsequent_report_ids s) (Z.to_nat 0))
    as [a Ha]; [rewrite Hlen; unfold NUM_FINGERS; lia|].
  rewrite (array_get_Some _ _ 0 a) by (assumption || lia).
  rewrite (array_get_None _ _ NUM_FINGERS)
    by (apply lookup_ge_None_2; rewrite Hlen; lia).
  reflexivity.
Qed.

(** X13.  Only a message of the finger branch can change the report. *)
Theorem only_finger_records_change_the_report (s : statics)
    (message : mxt_message) (d d' : digitizer_t) (b : bus) :
  fst (handle_message s message d b) = Ok d' ->
  d' = d \/ exists contact_id, classify s message = Ok (finger_report contact_id).
Proof.
  unfold handle_message.
  destruct (classify s message) as [[|contact_id|]|e]; cbn [fst].
  - intros [= <-]. left. reflexivity.
  - intros _. right. eauto.
  - destruct (unhandled_diagnostic s message); cbn [fst]; [|discriminate].
    intros [= <-]. left. reflexivity.
  - discriminate.
Qed.

Lemma wrap16_add_small (q m : Z) :
  0 <= m -> wrap16 q + m < 65536 -> wrap16 (q + m) = wrap16 q + m.
Proof.
  intros Hm Hs. unfold wrap16 in *. change (2 ^ 16) with 65536 in *.
  pose proof (Z.mod_pos_bound q 65536 ltac:(lia)).
  rewrite <- Z.add_mod_idemp_l by lia. apply Z.mod_small. lia.
Qed.

Lemma classify_finger_index (s : statics) (message : mxt_message) (contact_id : Z) :
  report_ids_consistent s ->
  classify s message = Ok (finger_report contact_id) ->
  0 <= contact_id < t100_num_reports s
  /\ t100_subsequent_report_ids s !! Z.to_nat contact_id
     = Some (u8 (report_id message)).
Proof.
  intros Hs Hclass.
  pose proof (classify_finger_range s message contact_id Hs Hclass) as Hrange.
  split; [exact Hrange|].
  destruct Hs as (Hlen & Hn & r & Hids). unfold classify in Hclass.
  destruct (u8 (report_id message) =? t100_first_report_id s); [discriminate|].
  apply bind_Ok_inv in Hclass. destruct Hclass as (first_id & H0 & Hclass).
  destruct (Z.geb_spec (u8 (report_id message)) first_id) as [Hge|]; [|discriminate].
  apply bind_Ok_inv in Hclass. destruct Hclass as (last_id & HN & Hclass).
  destruct (u8 (report_id message) <=? last_id); [|discriminate].
  injection Hclass as Hcid.
  unfold array_get in H0. change (0 <=? 0) with true in H0. cbv iota in H0.
  rewrite (Hids 0) in H0 by lia. injection H0 as H0.
  pose proof (u8_range (report_id message)) as Hid.
  assert (Hw : 0 <= wrap16 (r + 2 + 0))
    by (unfold wrap16; apply Z.mod_pos_bound; lia).
  rewrite wrap8_small in Hcid by lia.
  rewrite (Hids contact_id) by lia. f_equal.
  replace (r + 2 + contact_id) with (r + 2 + 0 + contact_id) by lia.
  rewrite wrap16_add_small; lia.
Qed.

(** X14.  In the statics that [read_object_table] leaves, the [contact_id] of
    a message of the finger branch is the place of the message's report id
    in [t100_subsequent_report_ids], among the ids assigned. *)
Theorem contact_id_is_index_of_report_id (b0 : bus) (message : mxt_message)
    (contact_id : Z) :
  let s := fst (read_object_table initial_statics b0) in
  classify s message = Ok (finger_report contact_id) ->
  0 <= contact_id < t100_num_reports s
  /\ t100_subsequent_report_ids s !! Z.to_nat contact_id
     = Some (u8 (report_id message)).
Proof.
  intros s Hclass. apply classify_finger_index; [|exact Hclass].
  apply read_object_table_consistent, report_ids_consistent_initial.
Qed.

Lemma handle_message_no_reads (s : statics) (message : mxt_message)
    (d : digitizer_t) (b : bus) :
  exists ops, log (snd (handle_message s message d b)) = log b ++ ops
              /\ reads ops = [].
Proof.
  apply handle_message_log.
Qed.

Lemma read_messages_loop_read_shape (n : nat) (s : statics) (d : digitizer_t)
    (b : bus) :
  exists ops k,
    log (snd (read_messages_loop n s d b)) = log b ++ ops
    /\ reads ops
       = repeat (Rd (t5_message_processor_address s) sizeof_mxt_message) k
    /\ (k <= n)%nat
    /\ (forall d', fst (read_messages_loop n s d b) = Ok d' -> k = n).
Proof.
  revert d b. induction n as [|n IH]; intros d b.
  - exists [], 0%nat. cbn. rewrite app_nil_r. repeat split; lia.
  - cbn [read_messages_loop]. unfold I2C_Read.
    destruct (next_reply b) as [r rest].
    set (message := match r with Ack buf => as_message buf | Nack _ => zero_message end).
    set (b1 := {| script := rest; log := _ |}).
    destruct (handle_message_no_reads s message d b1) as (ops1 & Hl1 & Hr1).
    destruct (handle_message s message d b1) as [[d1|e] b2]; cbn [snd] in Hl1.
    + destruct (IH d1 b2) as (ops2 & k & Hl2 & Hr2 & Hk & Hok).
      exists ([Rd (t5_message_processor_address s) sizeof_mxt_message] ++ ops1 ++ ops2),
        (S k).
      split; [|split; [|split]].
      * rewrite Hl2, Hl1. subst b1. cbn [log]. rewrite <- !app_assoc. reflexivity.
      * rewrite !reads_app, Hr1, Hr2. reflexivity.
      * lia.
      * intros d' Hd'. f_equal. eapply Hok. exact Hd'.
    + exists ([Rd (t5_message_processor_address s) sizeof_mxt_message] ++ ops1), 1%nat.
      split; [|split; [|split]].
      * cbn [snd]. rewrite Hl1. subst b1. cbn [log]. rewrite <- !app_assoc. reflexivity.
      * rewrite !reads_app, Hr1. reflexivity.
      * lia.
      * cbn [fst]. discriminate.
Qed.

(** X15.  The reads of a call of [read_messages] are the read of the message
    count at the T44 address followed by message reads, all of them at the
    address held for T5 (the one address, whether T5 was resolved or not);
    a call that returns a report has read exactly as many messages as the
    count declares. *)
Theorem read_messages_reads_at_t5 (s : statics) (digitizer_report : digitizer_t)
    (b : bus) :
  exists ops k,
    log (snd (read_messages s digitizer_report b)) = log b ++ ops
    /\ reads ops
       = (if t44_message_count_address s =? 0 then []
          else Rd (t44_message_count_address s) sizeof_mxt_message_count
               :: repeat (Rd (t5_message_processor_address s) sizeof_mxt_message) k)
    /\ Z.of_nat k <= declared_count s b
    /\ (forall d', fst (read_messages s digitizer_report b) = Ok d' ->
        Z.of_nat k = declared_count s b).
Proof.
  unfold read_messages, declared_count.
  destruct (t44_message_count_address s =? 0).
  - exists [], 0%nat. cbn. rewrite app_nil_r. repeat split; lia.
  - unfold I2C_Read. destruct (next_reply b) as [[status|buf] rest]; cbn [fst snd].
    + eexists. exists 0%nat. cbn [log]. split; [reflexivity|]. cbn. repeat split; lia.
    + set (b1 := {| script := rest; log := _ |}).
      pose proof (u8_range (count (as_message_count buf))) as Hc.
      destruct (read_messages_loop_read_shape
                  (Z.to_nat (u8 (count (as_message_count buf)))) s digitizer_report b1)
        as (ops & k & Hl & Hr & Hk & Hok).
      exists ([Rd (t44_message_count_address s) sizeof_mxt_message_count] ++ ops), k.
      split; [|split; [|split]].
      * rewrite Hl. subst b1. cbn [log]. rewrite <- app_assoc. reflexivity.
      * rewrite reads_app, Hr. reflexivity.
      * lia.
      * intros d' Hd'. rewrite (Hok d' Hd'). lia.
Qed.

(** *** The conversions between resolution and samples *)

(** X16.  For a resolution in the range of [uint16_t] and a distance of 26 to
    3276 mm, converting the resolution to samples and back is defined (no
    [int] overflow) and returns the resolution itself. *)
Theorem cpi_round_trip_exact (cpi_v dist_in_mm : Z) :
  0 <= cpi_v <= 65535 -> 26 <= dist_in_mm <= 3276 ->
  (samples ← CPI_TO_SAMPLES cpi_v dist_in_mm; SAMPLES_TO_CPI samples dist_in_mm)
  = Ok cpi_v.
Proof.
  intros Hc Hd.
  assert (Hp : 0 <= cpi_v * dist_in_mm * 10 <= 2146926600) by nia.
  rewrite CPI_TO_SAMPLES_Ok by (unfold INT_MAX; lia). cbn [mbind result_bind].
  rewrite (Z.quot_div_nonneg (cpi_v * dist_in_mm * 10 + 127) 254) by lia.
  set (n := (cpi_v * dist_in_mm * 10 + 127) / 254).
  pose proof (Z.div_mod (cpi_v * dist_in_mm * 10 + 127) 254 ltac:(lia)) as Hdm.
  pose proof (Z.mod_pos_bound (cpi_v * dist_in_mm * 10 + 127) 254 ltac:(lia)) as Hb.
  fold n in Hdm.
  assert (0 <= n) by (subst n; apply Z.div_pos; lia).
  rewrite SAMPLES_TO_CPI_Ok by (unfold INT_MAX; lia). f_equal.
  rewrite Z.quot_div_nonneg by lia.
  symmetry. apply Z.div_unique with (r := n * 254 + 5 * dist_in_mm
                                           - dist_in_mm * 10 * cpi_v); nia.
Qed.

(** X17.  For a number of samples in the range of [uint16_t] and a distance
    of 1 to 25 mm, converting the samples to a resolution and back is defined
    (no [int] overflow) and returns the number of samples itself. *)
Theorem samples_round_trip_exact (samples dist_in_mm : Z) :
  0 <= samples <= 65535 -> 1 <= dist_in_mm <= 25 ->
  (cpi_v ← SAMPLES_TO_CPI samples dist_in_mm; CPI_TO_SAMPLES cpi_v dist_in_mm)
  = Ok samples.
Proof.
  intros Hs Hd.
  rewrite SAMPLES_TO_CPI_Ok by (unfold INT_MAX; lia). cbn [mbind result_bind].
  rewrite (Z.quot_div_nonneg (samples * 254 + 5 * dist_in_mm)) by lia.
  set (c := (samples * 254 + 5 * dist_in_mm) / (dist_in_mm * 10)).
  pose proof (Z.div_mod (samples * 254 + 5 * dist_in_mm) (dist_in_mm * 10)
                ltac:(lia)) as Hdm.
  pose proof (Z.mod_pos_bound (samples * 254 + 5 * dist_in_mm) (dist_in_mm * 10)
                ltac:(lia)) as Hb.
  fold c in Hdm.
  assert (0 <= c) by (subst c; apply Z.div_pos; lia).
  assert (c * dist_in_mm * 10 <= samples * 254 + 5 * dist_in_mm) by nia.
  rewrite CPI_TO_SAMPLES_Ok by (unfold INT_MAX; lia). f_equal.
  rewrite Z.quot_div_nonneg by lia.
  symmetry. apply Z.div_unique with (r := c * dist_in_mm * 10 + 127 - 254 * samples);
    nia.
Qed.

(** *** initialize *)

Lemma writes_nil_addresses (l : list op) : writes l = [] -> write_addresses l = [].
Proof.
  induction l as [|o l IH]; [reflexivity|].
  destruct o; cbn; try discriminate; exact IH.
Qed.

Lemma resolve_entries_address (entries : list mxt_object_table_element)
    (r : Z) (s : statics) (t a : Z) :
  address_of_type t (resolve_entries entries r s) = Some a ->
  address_of_type t s = Some a
  \/ exists object, In object entries /\ u8 (type object) = t
                    /\ entry_address object = a.
Proof.
  revert r s. induction entries as [|object rest IH]; intros r s Ha.
  - left. exact Ha.
  - cbn [resolve_entries] in Ha. apply IH in Ha.
    destruct Ha as [Ha|(o & Hin & Hty & Hadd)].
    + rewrite object_switch_address_of_type in Ha.
      destruct (Z.eqb_spec t (u8 (type object))) as [E|_].
      * destruct (address_of_type t s); [|discriminate].
        injection Ha as <-. right. exists object. cbn [In]. auto.
      * left. exact Ha.
    + right. exists o. cbn [In]. auto.
Qed.

(** X18.  From the initial statics, [initialize] writes only to addresses that
    the chip declared: every address it writes to is not zero and is the
    address of an entry of type 7, 8, 46 or 100 that the walk over the object
    table read. *)
Theorem initialize_writes_declared_addresses (b : bus) (a : Z) :
  let r := initialize initial_statics b in
  In a (write_addresses (log (snd (snd r)))) ->
  In a (write_addresses (log b))
  \/ (a <> 0
      /\ exists buf object,
           fst (next_reply b) = Ack buf
           /\ In object
                (entries_read
                   (Z.to_nat (u8 (num_objects (as_information_block buf))))
                   (snd (next_reply b)))
           /\ In (u8 (type object)) [7; 8; 46; 100]
           /\ entry_address object = a).
Proof.
  intros r. subst r. unfold initialize.
  destruct (read_object_table_ops initial_statics b) as (ops1 & Hl1 & Hw1 & _).
  destruct (read_object_table initial_statics b) as [s1 b1] eqn:Hrot.
  cbn [snd] in Hl1 |- *.
  destruct (write_configuration_ops s1 b1) as (ops2 & Hl2 & Hw2 & _).
  rewrite Hl2, Hl1, !write_addresses_app, (writes_nil_addresses _ Hw1), Hw2.
  rewrite app_nil_r. intros Hin. apply in_app_or in Hin.
  destruct Hin as [Hin|Hin]; [left; exact Hin|]. right.
  apply filter_In in Hin. destruct Hin as [Hin Hnz].
  assert (Ha : a <> 0)
    by (unfold nonzero in Hnz; destruct (Z.eqb_spec a 0); [discriminate|assumption]).
  split; [exact Ha|].
  assert (Ht : exists t, In t [7; 8; 46; 100] /\ address_of_type t s1 = Some a).
  { apply in_app_or in Hin. cbn [In] in Hin |- *.
    destruct Hin as [[<-|[<-|[<-|[]]]]|Hin].
    - exists 7. auto.
    - exists 8. auto.
    - exists 46. auto 6.
    - destruct (fst (write_configuration s1 b1)); cbn [In] in Hin;
        [destruct Hin as [<-|[]]; exists 100; auto 7 | destruct Hin]. }
  destruct Ht as (t & Ht & Hadd).
  unfold read_object_table, I2C_Read in Hrot.
  destruct (next_reply b) as [[status|buf] rest]; cbn [fst snd].
  - injection Hrot as <- _. exfalso. cbn [In] in Ht.
    destruct Ht as [<-|[<-|[<-|[<-|[]]]]]; cbn in Hadd; congruence.
  - injection Hrot as <- _. rewrite walk_object_table_fold in Hadd.
    cbn [script printf information set_information] in Hadd.
    apply resolve_entries_address in Hadd.
    destruct Hadd as [Hadd|(object & Hin' & Hty & Hea)].
    + exfalso. cbn [In] in Ht.
      destruct Ht as [<-|[<-|[<-|[<-|[]]]]]; cbn in Hadd; congruence.
    + exists buf, object. rewrite Hty. auto.
Qed.

(** *** More on read_messages *)

(** X19.  With no per-finger id assigned, handling any message other than the
    aggregate report is undefined: either the guard of the finger branch or
    the diagnostic of the [else] branch indexes
    [t100_subsequent_report_ids[-1]]. *)
Theorem no_finger_id_makes_messages_undefined (s : statics)
    (message : mxt_message) (d : digitizer_t) (b : bus) :
  t100_num_reports s = 0 ->
  length (t100_subsequent_report_ids s) = Z.to_nat NUM_FINGERS ->
  u8 (report_id message) <> t100_first_report_id s ->
  handle_message s message d b
  = (UB (out_of_bounds ARRAY_t100_subsequent_report_ids (-1)), b).
Proof.
  intros Hn Hlen Hid.
  destruct (lookup_lt_is_Some_2 (t100_subsequent_report_ids s) (Z.to_nat 0))
    as [a Ha]; [rewrite Hlen; unfold NUM_FINGERS; lia|].
  unfold handle_message, classify, unhandled_diagnostic.
  destruct (Z.eqb_spec (u8 (report_id message)) (t100_first_report_id s));
    [contradiction|].
  rewrite Hn, !(array_get_Some _ _ 0 a) by (assumption || lia).
  cbn [mbind result_bind].
  destruct (u8 (report_id message) >=? a); reflexivity.
Qed.

Lemma assign_finger_length (contact_id : Z) (g : finger_t -> finger_t)
    (d d' : digitizer_t) :
  assign_finger contact_id g d = Ok d' ->
  length (fingers d') = length (fingers d).
Proof.
  unfold assign_finger. intros Hd. apply bind_Ok_inv in Hd.
  destruct Hd as (f & _ & Hd). injection Hd as <-. cbn [fingers].
  apply length_insert.
Qed.

Lemma finger_update_length (contact_id : Z) (message : mxt_message)
    (d d' : digitizer_t) :
  finger_update contact_id message d = Ok d' ->
  length (fingers d') = length (fingers d).
Proof.
  unfold finger_update. intros Hd.
  apply bind_Ok_inv in Hd. destruct Hd as (d1 & H1 & Hd).
  apply bind_Ok_inv in Hd. destruct Hd as (d2 & H2 & Hd).
  apply bind_Ok_inv in Hd. destruct Hd as (d3 & H3 & Hd).
  assert (L1 : length (fingers d1) = length (fingers d))
    by (destruct (message_event message =? DOWN h);
        [eapply assign_finger_length; exact H1 | injection H1 as <-; reflexivity]).
  assert (L2 : length (fingers d2) = length (fingers d1))
    by (destruct ((message_event message =? UP h)
                  || (message_event message =? UNSUP h)
                  || (message_event message =? DOWNUP h));
        [eapply assign_finger_length; exact H2 | injection H2 as <-; reflexivity]).
  pose proof (assign_finger_length _ _ _ _ H3) as L3.
  destruct (negb (message_event message =? UP h)).
  - apply bind_Ok_inv in Hd. destruct Hd as (d4 & H4 & Hd).
    pose proof (assign_finger_length _ _ _ _ H4).
    pose proof (assign_finger_length _ _ _ _ Hd). lia.
  - injection Hd as <-. lia.
Qed.

Lemma handle_message_length (s : statics) (message : mxt_message)
    (d d' : digitizer_t) (b : bus) :
  fst (handle_message s message d b) = Ok d' ->
  length (fingers d') = length (fingers d).
Proof.
  unfold handle_message.
  destruct (classify s message) as [[|contact_id|]|e]; cbn [fst].
  - intros [= <-]. reflexivity.
  - apply finger_update_length.
  - destruct (unhandled_diagnostic s message); cbn [fst]; [|discriminate].
    intros [= <-]. reflexivity.
  - discriminate.
Qed.

Lemma read_messages_loop_length (n : nat) (s : statics) (d d' : digitizer_t)
    (b : bus) :
  fst (read_messages_loop n s d b) = Ok d' ->
  length (fingers d') = length (fingers d).
Proof.
  revert d b. induction n as [|n IH]; intros d b; cbn [read_messages_loop].
  - intros [= <-]. reflexivity.
  - destruct (I2C_Read _ _ b) as [r b1].
    set (message := match r with Ack buf => as_message buf | Nack _ => zero_message end).
    pose proof (handle_message_length s message d) as Hh.
    destruct (handle_message s message d b1) as [[d1|e] b2] eqn:Hm.
    + intros Hd. apply IH in Hd. rewrite Hd. eapply (Hh d1 b1).
      rewrite Hm. reflexivity.
    + discriminate.
Qed.

(** X20.  A report that [read_messages] returns has as many fingers as the
    report it was given, whatever the statics and the messages. *)
Theorem read_messages_keeps_capacity (s : statics) (d d' : digitizer_t) (b : bus) :
  fst (read_messages s d b) = Ok d' ->
  length (fingers d') = length (fingers d).
Proof.
  unfold read_messages.
  destruct (t44_message_count_address s =? 0); [intros [= <-]; reflexivity|].
  destruct (I2C_Read _ _ b) as [[status|buf] b1]; [intros [= <-]; reflexivity|].
  apply read_messages_loop_length.
Qed.

End Driver.

(** * The driver on the example board *)

(** Resolution on the example chip. *)
Example example_statics_resolved :
  fst (read_object_table example_maxtouch_h initial_statics example_table)
  = example_statics.
Proof. reflexivity. Qed.

(** C1 on the example chip: 1 + 1 + 0 + 0 + 7. *)
Example example_counter :
  walk_report_id
    (walk_object_table (as_information_block (bytes [166; 2; 1; 0; 14; 24; 4]))
       initial_statics
       {| script := tl (script example_table); log := [] |}) = 9.
Proof. reflexivity. Qed.


(** Counterexample of C3: a table of two objects whose first read fails.
    The second pass reads address 7 again (after the information block at 0),
    and the entry whose read had failed is resolved by it. *)
Lemma failed_read_is_retried_at_same_address :
  let r :=
    read_object_table example_maxtouch_h initial_statics
      {| script := [Ack (bytes [166; 2; 1; 0; 14; 24; 2]);
                    Nack 1;
                    Ack (bytes [7; 16; 1; 3; 0; 1])];
         log := [] |} in
  read_addresses (log (snd r)) = [0; 7; 7]
  /\ ~ strictly_increasing (read_addresses (log (snd r)))
  /\ t7_powerconfig_address (fst r) = 272.
Proof.
  cbv zeta. split; [reflexivity|]. split; [|reflexivity].
  intros Hinc. specialize (Hinc 1%nat 2%nat 7 7). cbn in Hinc.
  specialize (Hinc ltac:(lia) eq_refl eq_refl). lia.
Qed.

(** Witness of C4: a DOWN message for finger 2 at (100,200), then an UP
    message for finger 2 with another position. *)
Lemma down_then_up_example :
  exists d2,
    fst (read_messages_loop example_maxtouch_h 2 example_statics all_inactive
           {| script := [Ack (bytes [6; 4; 100; 0; 200; 0]);
                         Ack (bytes [6; 5; 7; 0; 9; 0])];
              log := [] |}) = Ok d2
    /\ fingers d2 !! Z.to_nat 2
       = Some {| confidence := true; tip := false; x := 100; y := 200 |}.
Proof.
  apply (down_then_up_keeps_position example_maxtouch_h example_statics
           all_inactive _ (bytes [6; 4; 100; 0; 200; 0]) (bytes [6; 5; 7; 0; 9; 0])
           [] 2);
    first [ reflexivity | discriminate | (vm_compute; discriminate)
          | (eexists; reflexivity) ].
Defined.

(** Witness of C5: a SUP message for finger 1, whose tip is down. *)
Lemma suppressed_example :
  exists d' f',
    handle_message example_maxtouch_h example_statics
      (as_message (bytes [5; 3; 1; 0; 2; 0]))
      {| fingers := [inactive; {| confidence := true; tip := true; x := 9; y := 9 |};
                     inactive; inactive; inactive] |}
      {| script := []; log := [] |}
    = (Ok d', {| script := []; log := [] |})
    /\ fingers d' !! Z.to_nat 1 = Some f'
    /\ confidence f' = false
    /\ tip f' = true.
Proof.
  destruct (confidence_recomputed_every_record example_maxtouch_h example_statics
              (as_message (bytes [5; 3; 1; 0; 2; 0]))
              {| fingers := [inactive;
                             {| confidence := true; tip := true; x := 9; y := 9 |};
                             inactive; inactive; inactive] |}
              {| script := []; log := [] |} 1
              {| confidence := true; tip := true; x := 9; y := 9 |}
              eq_refl ltac:(lia) eq_refl)
    as (d' & f' & Hh & Hf & _ & Hsup).
  exists d', f'. split; [exact Hh|]. split; [exact Hf|].
  apply Hsup; first [reflexivity | discriminate].
Defined.

(** Witness of C6: 600 cpi over 40 mm, and 945 samples back. *)
Lemma cpi_samples_example :
  CPI_TO_SAMPLES 600 40
  = Ok (round_half_away_from_zero (inject_Z (600 * 40 * 10) / inject_Z 254))
  /\ SAMPLES_TO_CPI 945 40
     = Ok (round_half_away_from_zero (inject_Z (945 * 254) / inject_Z (40 * 10)))
  /\ exists cpi_back,
       (samples_v ← CPI_TO_SAMPLES 600 40; SAMPLES_TO_CPI samples_v 40)
       = Ok cpi_back
       /\ Z.abs (cpi_back - 600) <= 1.
Proof.
  apply (cpi_samples_conversions_round 600 945 40); unfold INT_MAX; lia.
Defined.

(** Witness of C7: the information block cannot be read. *)
Lemma header_failure_example :
  let b := {| script := [Nack 2; Ack (bytes [7; 16; 1; 3; 0; 1])]; log := [] |} in
  let s := fst (read_object_table example_maxtouch_h initial_statics b) in
  let b1 := snd (read_object_table example_maxtouch_h initial_statics b) in
  Forall (fun address => address = 0) (resolved_addresses s)
  /\ writes (log b1) = writes (log b)
  /\ write_configuration example_maxtouch_h s b1 = (Ok tt, b1).
Proof.
  apply (header_failure_resolves_nothing example_maxtouch_h _ 2). reflexivity.
Defined.

(** Witness of C9: a DOWN message with id 3 before any table was read, and
    on the example chip. *)
Lemma classification_example :
  classify initial_statics (as_message (bytes [3; 4; 100; 0; 200; 0]))
  = UB (out_of_bounds ARRAY_t100_subsequent_report_ids (-1))
  /\ exists c, classify example_statics (as_message (bytes [3; 4; 100; 0; 200; 0]))
               = Ok c.
Proof.
  split.
  - apply (proj1 (classification_needs_a_finger_id initial_statics
                    (as_message (bytes [3; 4; 100; 0; 200; 0]))));
      first [reflexivity | discriminate].
  - apply (proj2 (classification_needs_a_finger_id example_statics
                    (as_message (bytes [3; 4; 100; 0; 200; 0]))));
      first [reflexivity | (vm_compute; split; discriminate)].
Defined.

(** Witness of C10: on the example chip, with the matrix of 14 x 24 in
    [information], the T7 write succeeds, the T100 read fails and the T100
    write succeeds. *)
Lemma t100_read_failure_example :
  write_configuration example_maxtouch_h example_board_statics
    {| script := [Ack []; Nack 3; Ack []]; log := [] |}
  = (Ok tt,
     {| script := [];
        log := [Wr 272 5 (PAYLOAD_t7 {| idleacqint := 32; actacqint := 10;
                                        actv2idelto := 50; t7_cfg := 3 |});
                Rd 512 60;
                Wr 512 60
                  (PAYLOAD_t100
                     {| t100_image := zero_buffer 60;
                        ctrl := 3; cfg1 := 32; scraux := 1; numtch := 5;
                        xsize := 14; ysize := 24; xpitch := 4; ypitch := 1;
                        gain := 4; dxgain := 255; tchthr := 18; mrgthr := 5;
                        mrghyst := 5; movsmooth := 224; movfilter := 4;
                        movhysti := 6; movhystn := 4;
                        xrange := 945; yrange := 1417 |})] |}).
Proof.
  rewrite (write_configuration_ignores_t100_read_status example_maxtouch_h
             example_board_statics
             {| script := [Ack []; Nack 3; Ack []]; log := [] |} 3);
    first [ reflexivity | discriminate
          | (split; vm_compute; first [reflexivity | discriminate]) ].
Defined.

(** ** Further properties on the example board *)

(** Witness of X1: the T100 entry of the example chip, read with the counter
    at 2. *)
Lemma t100_entry_example :
  let object := as_object_table_element (bytes [100; 0; 2; 59; 0; 7]) in
  let s' := object_switch object 512 2 initial_statics in
  t100_multiple_touch_touchscreen_address s' = 512
  /\ t100_first_report_id s' = wrap16 2
  /\ t100_second_report_id s' = wrap16 (2 + 1)
  /\ t100_num_reports s' = Z.min NUM_FINGERS (u8 (report_ids_per_instance object))
  /\ forall k, 0 <= k < t100_num_reports s' ->
       t100_subsequent_report_ids s' !! Z.to_nat k = Some (wrap16 (2 + 2 + k)).
Proof.
  apply (t100_entry_assigns_finger_ids
           (as_object_table_element (bytes [100; 0; 2; 59; 0; 7])) 512 2
           initial_statics); reflexivity.
Defined.

(** Witness of X2: a T5 entry whose [size_minus_one] is zero. *)
Lemma t5_entry_example :
  let object := as_object_table_element (bytes [5; 48; 1; 0; 0; 0]) in
  let s' := object_switch object 304 1 initial_statics in
  t5_message_processor_address s' = 304
  /\ t5_max_message_size s'
     = (if u8 (size_minus_one object) =? 0 then 65535
        else u8 (size_minus_one object) - 1).
Proof.
  apply (t5_entry_max_message_size
           (as_object_table_element (bytes [5; 48; 1; 0; 0; 0])) 304 1
           initial_statics); reflexivity.
Defined.

(** Witness of X8: the example chip with the matrix of 14 x 24 in
    [information]. *)
Lemma write_configuration_defined_example :
  fst (write_configuration example_maxtouch_h example_board_statics
         {| script := [Ack []; Ack (bytes [1; 2; 3]); Nack 4]; log := [] |})
  = if (t100_multiple_touch_touchscreen_address example_board_statics =? 0)
       || (nonzero (u8 (matrix_x_size (information example_board_statics)))
           && nonzero (u8 (matrix_y_size (information example_board_statics))))
    then Ok tt
    else UB division_by_zero.
Proof.
  apply (write_configuration_defined example_maxtouch_h example_board_statics);
    (split; vm_compute; first [reflexivity | discriminate]).
Defined.

(** Witness of X9: a DOWN message for finger 2 at (100,200). *)
Lemma finger_record_example :
  exists f',
    handle_message example_maxtouch_h example_statics
      (as_message (bytes [6; 4; 100; 0; 200; 0])) all_inactive
      {| script := []; log := [] |}
    = (Ok {| fingers := <[Z.to_nat 2 := f']> (fingers all_inactive) |},
       {| script := []; log := [] |})
    /\ tip f' = true /\ x f' = 100 /\ y f' = 200.
Proof.
  destruct (finger_record_rewrites_its_finger example_maxtouch_h example_statics
              (as_message (bytes [6; 4; 100; 0; 200; 0])) all_inactive
              {| script := []; log := [] |} 2 inactive eq_refl ltac:(lia) eq_refl)
    as (f' & Hh & Ht & Hx & Hy).
  exists f'. repeat split; assumption.
Defined.

(** Witness of X11: three of the five ids assigned, and a message with id 9. *)
Lemma unhandled_record_example :
  exists first_id past_id last_id,
    handle_message example_maxtouch_h (set_t100_num_reports 3 example_statics)
      (as_message (bytes [9; 4; 100; 0; 200; 0])) all_inactive
      {| script := []; log := [] |}
    = (Ok all_inactive,
       {| script := [];
          log := [] ++ [Printf (Unhandled_ID
                                  (u8 (report_id (as_message
                                                    (bytes [9; 4; 100; 0; 200; 0]))))
                                  first_id past_id last_id)] |}).
Proof.
  apply (unhandled_record_is_reported example_maxtouch_h
           (set_t100_num_reports 3 example_statics)
           (as_message (bytes [9; 4; 100; 0; 200; 0])) all_inactive
           {| script := []; log := [] |});
    first [reflexivity | (split; vm_compute; first [reflexivity | discriminate])].
Defined.

(** Witness of X12: on the example chip, a message with the report id of
    T7. *)
Lemma unhandled_record_past_ids_example :
  handle_message example_maxtouch_h example_statics
    (as_message (bytes [1; 0; 0; 0; 0; 0])) all_inactive
    {| script := []; log := [] |}
  = (UB (out_of_bounds ARRAY_t100_subsequent_report_ids NUM_FINGERS),
     {| script := []; log := [] |}).
Proof.
  apply (unhandled_record_indexes_past_ids example_maxtouch_h example_statics);
    reflexivity.
Defined.

(** Witness of X13: the aggregate report of the example chip. *)
Lemma aggregate_record_example :
  all_inactive = all_inactive
  \/ exists contact_id,
       classify example_statics (as_message (bytes [2; 1; 0; 0; 0; 0]))
       = Ok (finger_report contact_id).
Proof.
  apply (only_finger_records_change_the_report example_maxtouch_h example_statics
           (as_message (bytes [2; 1; 0; 0; 0; 0])) all_inactive all_inactive
           {| script := []; log := [] |}).
  reflexivity.
Defined.

(** Witness of X14: report id 6 on the example chip is finger 2. *)
Lemma contact_id_example :
  let s := fst (read_object_table example_maxtouch_h initial_statics example_table) in
  0 <= 2 < t100_num_reports s
  /\ t100_subsequent_report_ids s !! Z.to_nat 2
     = Some (u8 (report_id (as_message (bytes [6; 4; 100; 0; 200; 0])))).
Proof.
  apply (contact_id_is_index_of_report_id example_maxtouch_h example_table
           (as_message (bytes [6; 4; 100; 0; 200; 0])) 2).
  reflexivity.
Defined.

(** Witness of X16. *)
Lemma cpi_round_trip_example :
  (samples ← CPI_TO_SAMPLES 1200 26; SAMPLES_TO_CPI samples 26) = Ok 1200.
Proof.
  apply (cpi_round_trip_exact 1200 26); lia.
Defined.

(** Witness of X17. *)
Lemma samples_round_trip_example :
  (cpi_v ← SAMPLES_TO_CPI 100 25; CPI_TO_SAMPLES cpi_v 25) = Ok 100.
Proof.
  apply (samples_round_trip_exact 100 25); lia.
Defined.

(** Witness of X18: on the example chip [initialize] writes to T7, whose
    address is not zero and is the one its entry declares. *)
Lemma initialize_example :
  In 272 (write_addresses
            (log (snd (snd (initialize example_maxtouch_h initial_statics
                              example_table)))))
  /\ (In 272 (write_addresses (log example_table))
      \/ (272 <> 0
          /\ exists buf object,
               fst (next_reply example_table) = Ack buf
               /\ In object
                    (entries_read
                       (Z.to_nat (u8 (num_objects (as_information_block buf))))
                       (snd (next_reply example_table)))
               /\ In (u8 (type object)) [7; 8; 46; 100]
               /\ entry_address object = 272)).
Proof.
  split.
  - vm_compute. left. reflexivity.
  - apply (initialize_writes_declared_addresses example_maxtouch_h example_table 272).
    vm_compute. left. reflexivity.
Defined.

(** Witness of X19: a message with id 3 before any table was read. *)
Lemma no_finger_id_example :
  handle_message example_maxtouch_h initial_statics
    (as_message (bytes [3; 4; 100; 0; 200; 0])) all_inactive
    {| script := []; log := [] |}
  = (UB (out_of_bounds ARRAY_t100_subsequent_report_ids (-1)),
     {| script := []; log := [] |}).
Proof.
  apply (no_finger_id_makes_messages_undefined example_maxtouch_h initial_statics);
    first [reflexivity | discriminate].
Defined.

(** Witness of X20: a cycle with a DOWN message for finger 2 and the
    aggregate report. *)
Lemma read_messages_capacity_example :
  exists d',
    fst (read_messages example_maxtouch_h example_statics all_inactive
           {| script := [Ack (bytes [2]);
                         Ack (bytes [6; 4; 100; 0; 200; 0]);
                         Ack (bytes [2; 1; 0; 0; 0; 0])];
              log := [] |}) = Ok d'
    /\ length (fingers d') = length (fingers all_inactive).
Proof.
  eexists. split; [reflexivity|].
  apply (read_messages_keeps_capacity example_maxtouch_h example_statics
           all_inactive _
           {| script := [Ack (bytes [2]);
                         Ack (bytes [6; 4; 100; 0; 200; 0]);
                         Ack (bytes [2; 1; 0; 0; 0; 0])];
              log := [] |}).
  reflexivity.
Defined.
